(** * Pantone Formula Guide Coated scraper: a shallow embedding

    The development follows [pantone_formula_guide_coated_scraper_v.1.0.py]
    top to bottom: the interpreter builtins the script calls ([int], [str],
    [str.strip], [str.replace]), the two libraries it drives (the HTTP
    client and the HTML tree), its module constants, its six functions
    and [main].

    Conventions.
    - A text string is a [string]; one [ascii] is one code point below 256.
      Code points above 255 are outside the model.
    - Integers are [Z] (unbounded, as in the interpreter).  The
      interpreter's optional cap on the length of decimal conversions is
      taken as switched off.
    - A call that can raise returns a [result]; code with effects (network,
      file system, console, clock) runs in the monad [M] over [state].
    - The remote site and the HTML parser are parameters of the script.
      Paths are POSIX paths.  Writing to the console or to the open file
      does not fail, and what is written to the file is in it at once.
    - Two failures of the environment are left out: [open] is refused only
      by a path that is not a regular file (a missing or read-only
      directory is not modelled), and the parser accepts every body. *)

From Stdlib Require Import ZArith List String Ascii Bool Lia.
From Stdlib Require Import Decimal DecimalPos DecimalString.
#[local] Set Warnings "-register-all".
Import ListNotations.
Open Scope string_scope.
Open Scope Z_scope.

(** ** Exceptions and results *)

Inductive exn : Type :=
| ValueError
| TypeError
| IndexError
| AttributeError
| UnboundLocalError (variable : string)
| IsADirectoryError
| RequestException.

Inductive result (A : Type) : Type :=
| Ok (a : A)
| Raise (e : exn).
Arguments Ok {A} a.
Arguments Raise {A} e.

(** ** Interpreter builtins *)

Module Py.

(** A value that [scrape_colour] can be handed: an [int] or a [str]. *)
Inductive value : Type :=
| Int (n : Z)
| Str (s : string).

Definition code (c : ascii) : nat := nat_of_ascii c.

Definition between (lo hi : nat) (c : ascii) : bool :=
  (Nat.leb lo (code c) && Nat.leb (code c) hi)%bool.

(** [str.isspace] on one character: TAB..CR, FS..US, space, NEL, NBSP. *)
Definition isspace (c : ascii) : bool :=
  (between 9 13 c || between 28 32 c
   || Nat.eqb (code c) 133 || Nat.eqb (code c) 160)%bool.

(** The blanks [int] skips around a literal: as [isspace] without FS..US. *)
Definition int_isspace (c : ascii) : bool :=
  (between 9 13 c || Nat.eqb (code c) 32
   || Nat.eqb (code c) 133 || Nat.eqb (code c) 160)%bool.

Definition isdigit (c : ascii) : bool := between 48 57 c.

Definition digit (c : ascii) : Z := Z.of_nat (code c) - 48.

Fixpoint lstrip (sp : ascii -> bool) (s : string) : string :=
  match s with
  | String c s' => if sp c then lstrip sp s' else s
  | EmptyString => EmptyString
  end.

Fixpoint rstrip (sp : ascii -> bool) (s : string) : string :=
  match s with
  | String c s' =>
      match rstrip sp s' with
      | EmptyString => if sp c then EmptyString else String c EmptyString
      | r => String c r
      end
  | EmptyString => EmptyString
  end.

(** [s.strip()] *)
Definition strip (s : string) : string := rstrip isspace (lstrip isspace s).

(** [s.replace(old, new)] for one-character [old] and [new]. *)
Fixpoint replace (old new : ascii) (s : string) : string :=
  match s with
  | String c s' =>
      String (if Ascii.eqb c old then new else c) (replace old new s')
  | EmptyString => EmptyString
  end.

(** Digits of a decimal literal after its first digit: single
    underscores are allowed between digits only. *)
Fixpoint int_digits (acc : Z) (s : string) : option Z :=
  match s with
  | EmptyString => Some acc
  | String c s' =>
      if isdigit c then int_digits (10 * acc + digit c) s'
      else if Ascii.eqb c "_" then
        match s' with
        | String d s'' =>
            if isdigit d then int_digits (10 * acc + digit d) s'' else None
        | EmptyString => None
        end
      else None
  end.

Definition int_literal (s : string) : option Z :=
  match s with
  | String c s' => if isdigit c then int_digits (digit c) s' else None
  | EmptyString => None
  end.

(** [int(s)] for a string: blanks around, an optional sign, a literal. *)
Definition int_of_str (s : string) : option Z :=
  match rstrip int_isspace (lstrip int_isspace s) with
  | String "+" r => int_literal r
  | String "-" r => option_map Z.opp (int_literal r)
  | t => int_literal t
  end.

(** [int(v)] *)
Definition int (v : value) : result Z :=
  match v with
  | Int n => Ok n
  | Str s =>
      match int_of_str s with
      | Some n => Ok n
      | None => Raise ValueError
      end
  end.

(** [str(v)] *)
Definition str (v : value) : string :=
  match v with
  | Int n => NilZero.string_of_int (Z.to_int n)
  | Str s => s
  end.

(** [range(lo, hi)] *)
Definition range (lo hi : Z) : list Z :=
  map (fun k => lo + Z.of_nat k) (seq 0 (Z.to_nat (hi - lo))).

(** The line feed. *)
Definition newline : string := String (ascii_of_nat 10) EmptyString.

(** [f'{x}'] for an optional string: the string, or the text [None]. *)
Definition format (x : option string) : string :=
  match x with
  | Some s => s
  | None => "None"
  end.

(** [sep.join(l)] *)
Fixpoint join (sep : string) (l : list string) : string :=
  match l with
  | [] => EmptyString
  | [x] => x
  | x :: l' => x ++ sep ++ join sep l'
  end.

End Py.

(** ** The HTML tree the parser hands back *)

Module Bs4.

(** An attribute is a plain string, or a list of strings for the
    multi-valued ones such as [class]. *)
Inductive attr_value : Type :=
| AttrStr (s : string)
| AttrList (l : list string).

Inductive node : Type :=
| NavigableString (s : string)
| Comment (s : string)
| Tag (name : string) (attrs : list (string * attr_value))
      (contents : list node).

(** The document object: the nodes at top level. *)
Definition soup : Type := list node.

(** [attrs.get(key)] *)
Fixpoint attr_get (key : string) (attrs : list (string * attr_value))
  : option attr_value :=
  match attrs with
  | [] => None
  | (k, v) :: rest => if String.eqb k key then Some v else attr_get key rest
  end.

(** A node and everything below it, in document order. *)
Fixpoint with_descendants (n : node) : list node :=
  match n with
  | Tag _ _ contents => n :: flat_map with_descendants contents
  | _ => [n]
  end.

Definition descendants (doc : soup) : list node :=
  flat_map with_descendants doc.

(** How a search string is matched against an attribute value: a
    multi-valued attribute matches on any one of its values, or on the
    values joined by a space. *)
Definition value_matches (v : attr_value) (against : string) : bool :=
  match v with
  | AttrStr s => String.eqb s against
  | AttrList l =>
      (existsb (fun item => String.eqb item against) l
       || String.eqb (Py.join " " l) against)%bool
  end.

Definition tag_matches (key against : string) (n : node) : bool :=
  match n with
  | Tag _ attrs _ =>
      match attr_get key attrs with
      | Some v => value_matches v against
      | None => false
      end
  | _ => false
  end.

(** [doc.find(attrs={key: against})]: the first tag in document order
    that matches, or nothing. *)
Definition find (key against : string) (doc : soup) : option node :=
  List.find (tag_matches key against) (descendants doc).

Definition own_string (n : node) : string :=
  match n with
  | NavigableString s => s
  | _ => EmptyString
  end.

(** [n.text]: the strings below [n], concatenated; comments are left
    out. *)
Definition text (n : node) : string :=
  String.concat EmptyString (map own_string (with_descendants n)).

End Bs4.

(** ** Module constants *)

Definition COLOUR_FINDER_URL : string := "https://www.pantone.com/color-finder".

(** ** URL builders *)

(** [name.replace(' ', '-')] needs a string; an [int] has no [replace]. *)
Definition get_colour_url_from_name (colour_finder_url : string)
  (name : Py.value) : result string :=
  match name with
  | Py.Str s =>
      let name := Py.replace " " "-" s in
      Ok (colour_finder_url ++ "/" ++ name)
  | Py.Int _ => Raise AttributeError
  end.

Definition get_colour_url_from_number (colour_finder_url : string)
  (number : Py.value) : string :=
  let number := Py.str number in
  colour_finder_url ++ "/" ++ number ++ "-C".

(** ** Field extraction *)

Definition get_colour_code (soup : Bs4.soup) : option string :=
  match Bs4.find "class" "pColorCode" soup with
  | Some colour_code => Some (Py.strip (Bs4.text colour_code))
  | None => None
  end.

Definition get_colour_hex (soup : Bs4.soup) : option string :=
  match Bs4.find "id" "ctl00_cphContent_ctl00_divHEXValues" soup with
  | Some colour_hex => Some (Py.strip (Bs4.text colour_hex))
  | None => None
  end.

(** ** The world outside the script *)

Module Requests.

Record Response : Type := { status_code : Z; text : string }.

(** [bool(response)]: false exactly for the 4xx and 5xx statuses. *)
Definition ok (r : Response) : bool :=
  negb ((400 <=? status_code r) && (status_code r <? 600)).

(** What one call of [requests.get] comes to: a response, or an exception
    of the transport (no connection, timeout, ...). *)
Inductive outcome : Type :=
| Received (r : Response)
| Failed.

End Requests.

(** What sits at a path: nothing, a regular file, or something that is not
    a regular file. *)
Inductive fs_entry : Type :=
| Missing
| File (content : string)
| Directory.

Definition filesystem : Type := string -> fs_entry.

Definition fs_set (fs : filesystem) (path : string) (e : fs_entry)
  : filesystem :=
  fun p => if String.eqb p path then e else fs p.

(** An open file object. *)
Record file : Type := { name : string; mode : string }.

(** What the script does to the world, in order. *)
Inductive event : Type :=
| Get (url : string)
| Open (path mode : string)
| Write (path data : string)
| Print (line : string)
| Sleep (seconds : Z).

(** [sent] counts the requests issued so far in this run; [open_files]
    lists the file objects opened and not closed. *)
Record state : Type := {
  fs : filesystem;
  sent : nat;
  open_files : list file;
  trace : list event
}.

Definition log (e : event) (st : state) : state :=
  {| fs := fs st; sent := sent st; open_files := open_files st;
     trace := trace st ++ [e] |}.

(** The state after one more request, to [url]. *)
Definition requested (url : string) (st : state) : state :=
  {| fs := fs st; sent := S (sent st); open_files := open_files st;
     trace := trace st ++ [Get url] |}.

(** ** The monad of effects and exceptions *)

Definition M (A : Type) : Type := state -> result A * state.

Definition ret {A : Type} (a : A) : M A := fun st => (Ok a, st).

Definition raise {A : Type} (e : exn) : M A := fun st => (Raise e, st).

Definition bind {A B : Type} (m : M A) (k : A -> M B) : M B :=
  fun st =>
    match m st with
    | (Ok a, st') => k a st'
    | (Raise e, st') => (Raise e, st')
    end.

Definition lift {A : Type} (r : result A) : M A := fun st => (r, st).

Declare Scope py_scope.
Delimit Scope py_scope with py.
Notation "x <- c1 ;; c2" := (bind c1 (fun x => c2))
  (at level 100, c1 at next level, right associativity) : py_scope.
Notation "c1 ;; c2" := (bind c1 (fun _ => c2))
  (at level 100, right associativity) : py_scope.
Open Scope py_scope.

(** [for x in l: body x] *)
Fixpoint for_each {A : Type} (l : list A) (body : A -> M unit) : M unit :=
  match l with
  | [] => ret tt
  | x :: l' => body x ;; for_each l' body
  end.

(** [print(line)] *)
Definition print (line : string) : M unit :=
  fun st => (Ok tt, log (Print line) st).

(** [time.sleep(seconds)] *)
Definition sleep (seconds : Z) : M unit :=
  fun st => (Ok tt, log (Sleep seconds) st).

(** [os.path.exists(path)] and [os.path.isfile(path)] *)
Definition os_path_exists (path : string) : M bool :=
  fun st =>
    (Ok match fs st path with Missing => false | _ => true end, st).

Definition os_path_isfile (path : string) : M bool :=
  fun st =>
    (Ok match fs st path with File _ => true | _ => false end, st).

Definition startswith (c : ascii) (s : string) : bool :=
  match s with
  | String c' _ => Ascii.eqb c' c
  | EmptyString => false
  end.

Fixpoint endswith (c : ascii) (s : string) : bool :=
  match s with
  | String c' EmptyString => Ascii.eqb c' c
  | String _ s' => endswith c s'
  | EmptyString => false
  end.

(** [os.path.join(a, b)] on a POSIX system *)
Definition os_path_join (a b : string) : string :=
  if startswith "/" b then b
  else if (String.eqb a EmptyString || endswith "/" a)%bool then a ++ b
  else a ++ "/" ++ b.

(** [open(path, mode)] for the modes ['a'] and ['w']: both create a
    missing file, ['w'] empties an existing one, ['a'] keeps it.  The
    call is refused on a path that is not a regular file; a refusal for
    the sake of the directory (missing, read-only) is not modelled. *)
Definition open_ (path mode : string) : M file :=
  fun st =>
    let st := log (Open path mode) st in
    let f := {| name := path; mode := mode |} in
    let opened content :=
      (Ok f, {| fs := fs_set (fs st) path (File content); sent := sent st;
                open_files := open_files st ++ [f]; trace := trace st |}) in
    if String.eqb mode "a" then
      match fs st path with
      | Directory => (Raise IsADirectoryError, st)
      | File content => opened content
      | Missing => opened EmptyString
      end
    else if String.eqb mode "w" then
      match fs st path with
      | Directory => (Raise IsADirectoryError, st)
      | _ => opened EmptyString
      end
    else (Raise ValueError, st).

(** [f.write(data)]: the data goes to the end of the file.  Buffering is
    not modelled: what is written is in the file. *)
Definition write (f : file) (data : string) : M unit :=
  fun st =>
    let st := log (Write (name f) data) st in
    (Ok tt,
     match fs st (name f) with
     | File content =>
         {| fs := fs_set (fs st) (name f) (File (content ++ data));
            sent := sent st; open_files := open_files st;
            trace := trace st |}
     | _ => st
     end).

(** [t[k]] for what [scrape_colour] returns: [None] or a pair. *)
Definition getitem (t : option (option string * option string)) (k : nat)
  : M (option string) :=
  match t with
  | None => raise TypeError
  | Some (a, b) =>
      match k with
      | O => ret a
      | S O => ret b
      | _ => raise IndexError
      end
  end.

(** ** More module constants *)

Definition PANTONE_COATED_NUMBERED_COLOURS : list Z := Py.range 100 7772.

Definition PANTONE_COATED_NAMED_COLOURS : list string := [
  "Black C"; "Black 0961 C"; "Black 2 C"; "Black 3 C"; "Black 4 C";
  "Black 5 C"; "Black 6 C"; "Black 7 C"; "Blue 072 C"; "Blue 0821 C";
  "Bright Red C"; "Cool Gray 1 C"; "Cool Gray 2 C"; "Cool Gray 3 C";
  "Cool Gray 4 C"; "Cool Gray 5 C"; "Cool Gray 6 C"; "Cool Gray 7 C";
  "Cool Gray 8 C"; "Cool Gray 9 C"; "Cool Gray 10 C"; "Cool Gray 11 C";
  "Dark Blue C"; "Green C"; "Green 0921 C"; "Magenta 0521 C";
  "Medium Purple C"; "Orange 021 C"; "Pink C"; "Process Blue C"; "Purple C";
  "Red 032 C"; "Red 0331 C"; "Reflex Blue C"; "Rhodamine Red C"; "Violet C";
  "Violet 0631 C"; "Warm Gray 1 C"; "Warm Gray 2 C"; "Warm Gray 3 C";
  "Warm Gray 4 C"; "Warm Gray 5 C"; "Warm Gray 6 C"; "Warm Gray 7 C";
  "Warm Gray 8 C"; "Warm Gray 9 C"; "Warm Gray 10 C"; "Warm Gray 11 C";
  "Warm Red C"; "Yellow C"; "Yellow 012 C"; "Yellow 0131 C"
].

Definition CSV_FILE_NAME : string := "pantone_formula_guide_coated.csv".

(** ** The script's effectful functions *)

Section Script.

(** The remote site: what the [k]-th request of the run, to [url], comes
    to. *)
Variable network : nat -> string -> Requests.outcome.

(** [BeautifulSoup(markup, 'html.parser')], for the bodies the parser
    accepts; a body it rejects is not modelled. *)
Variable html_parser : string -> Bs4.soup.

(** The directory the script lies in. *)
Variable OUTPUT_DIR : string.

(** [requests.get(url)] *)
Definition requests_get (url : string) : M Requests.Response :=
  fun st =>
    match network (sent st) url with
    | Requests.Received r => (Ok r, requested url st)
    | Requests.Failed => (Raise RequestException, requested url st)
    end.

(** The [try] statement of [scrape_colour]: what [colour_url] is bound to
    after it, [None] when it is left unbound. *)
Definition scrape_colour_try (colour : Py.value) : result (option string) :=
  match Py.int colour with
  | Ok n =>
      if n =? 0 then Ok None
      else
        let colour := Py.Str (Py.str colour) in
        Ok (Some (get_colour_url_from_number COLOUR_FINDER_URL colour))
  | Raise ValueError =>
      match get_colour_url_from_name COLOUR_FINDER_URL colour with
      | Ok colour_url => Ok (Some colour_url)
      | Raise e => Raise e
      end
  | Raise e => Raise e
  end.

(** Reading a local variable that may be unbound. *)
Definition local {A : Type} (variable : string) (binding : option A) : M A :=
  match binding with
  | Some a => ret a
  | None => raise (UnboundLocalError variable)
  end.

(** The value returned is [None] when the function falls off its end, a
    pair otherwise. *)
Definition scrape_colour (colour : Py.value)
  : M (option (option string * option string)) :=
  colour_url <- lift (scrape_colour_try colour) ;;
  colour_url <- local "colour_url" colour_url ;;
  response <- requests_get colour_url ;;
  if Requests.ok response then
    let soup := html_parser (Requests.text response) in
    let colour_code := get_colour_code soup in
    let colour_hex := get_colour_hex soup in
    ret (Some (colour_code, colour_hex))
  else ret None.

Definition prepare_csv_file (directory name : string) : M file :=
  let csv_file_path := os_path_join directory name in
  is_there <- os_path_exists csv_file_path ;;
  is_file <- (if is_there then os_path_isfile csv_file_path else ret false) ;;
  csv_file <-
    (if is_file then
       csv_file <- open_ csv_file_path "a" ;; ret (Some csv_file)
     else
       is_there <- os_path_exists csv_file_path ;;
       if negb is_there then
         csv_file <- open_ csv_file_path "a" ;; ret (Some csv_file)
       else ret None) ;;
  local "csv_file" csv_file.

(** The body that the two loops of [main] share, for the identifier [i]. *)
Definition main_body (csv_file : file) (i : Py.value) : M unit :=
  colour_data <- scrape_colour i ;;
  first <- getitem colour_data 0 ;;
  match first with
  | None => ret tt
  | Some _ =>
      second <- getitem colour_data 1 ;;
      match second with
      | None => ret tt
      | Some _ =>
          colour_code <- getitem colour_data 0 ;;
          colour_hex <- getitem colour_data 1 ;;
          let colour_code := Py.format colour_code in
          let colour_hex := Py.format colour_hex in
          print ("Colour data obtained: " ++ colour_code ++ " / " ++ colour_hex) ;;
          write csv_file (colour_code ++ ", " ++ colour_hex ++ ", " ++ Py.newline) ;;
          print ("Colour data written to " ++ CSV_FILE_NAME) ;;
          sleep 1
      end
  end.

Definition main : M unit :=
  csv_file <- prepare_csv_file OUTPUT_DIR CSV_FILE_NAME ;;
  for_each PANTONE_COATED_NAMED_COLOURS
    (fun i => main_body csv_file (Py.Str i)) ;;
  for_each PANTONE_COATED_NUMBERED_COLOURS
    (fun i => main_body csv_file (Py.Int i)) ;;
  print "Scraping is complete.".

End Script.

(** ** Vocabulary of the statements *)

(** Every character of [s] satisfies [p]. *)
Fixpoint all_chars (p : ascii -> bool) (s : string) : bool :=
  match s with
  | String c s' => (p c && all_chars p s')%bool
  | EmptyString => true
  end.

Definition first_char (s : string) : option ascii :=
  match s with
  | String c _ => Some c
  | EmptyString => None
  end.

Fixpoint last_char (s : string) : option ascii :=
  match s with
  | String c EmptyString => Some c
  | String _ s' => last_char s'
  | EmptyString => None
  end.

(** [t] is [s] without a run of blanks at each end, and cannot lose more. *)
Definition trimmed_of (s t : string) : Prop :=
  (exists l r, s = l ++ t ++ r
     /\ all_chars Py.isspace l = true /\ all_chars Py.isspace r = true)
  /\ (forall c, first_char t = Some c -> Py.isspace c = false)
  /\ (forall c, last_char t = Some c -> Py.isspace c = false).

(** [t] is the first node of the document, in document order, that
    carries the marker. *)
Definition first_match (key against : string) (doc : Bs4.soup)
  (t : Bs4.node) : Prop :=
  exists before after,
    Bs4.descendants doc = (before ++ t :: after)%list
    /\ Bs4.tag_matches key against t = true
    /\ Forall (fun n => Bs4.tag_matches key against n = false) before.

(** No node of the document carries the marker. *)
Definition no_match (key against : string) (doc : Bs4.soup) : Prop :=
  Forall (fun n => Bs4.tag_matches key against n = false)
         (Bs4.descendants doc).

(** The line the script writes for one colour. *)
Definition output_record (colour_code colour_hex : string) : string :=
  colour_code ++ ", " ++ colour_hex ++ ", " ++ Py.newline.

Definition is_output_record (line : string) : Prop :=
  exists colour_code colour_hex, line = output_record colour_code colour_hex.

(** Projections of a trace. *)
Definition gets (tr : list event) : list string :=
  flat_map (fun e => match e with Get url => [url] | _ => [] end) tr.

Definition opens (tr : list event) : list (string * string) :=
  flat_map (fun e => match e with Open p m => [(p, m)] | _ => [] end) tr.

Definition writes (tr : list event) : list (string * string) :=
  flat_map (fun e => match e with Write p d => [(p, d)] | _ => [] end) tr.

Definition sleeps (tr : list event) : list Z :=
  flat_map (fun e => match e with Sleep s => [s] | _ => [] end) tr.

(** The state a run starts in: only the file system is inherited. *)
Definition boot (fs0 : filesystem) : state :=
  {| fs := fs0; sent := 0; open_files := []; trace := [] |}.

(** What a file holds before a run; a missing file holds nothing. *)
Definition content_of (e : fs_entry) : string :=
  match e with
  | File content => content
  | _ => EmptyString
  end.

Section Lookups.

Variable network : nat -> string -> Requests.outcome.
Variable html_parser : string -> Bs4.soup.

(** The [k]-th request, to [url], was answered with a page that carries
    both fields. *)
Definition answered_in_full (k : nat) (url : string) : bool :=
  match network k url with
  | Requests.Received r =>
      (Requests.ok r
       && match get_colour_code (html_parser (Requests.text r)),
                get_colour_hex (html_parser (Requests.text r)) with
          | Some _, Some _ => true
          | _, _ => false
          end)%bool
  | Requests.Failed => false
  end.

(** How many of the requests [urls], numbered from [k], were answered in
    full. *)
Fixpoint answered_from (k : nat) (urls : list string) : nat :=
  match urls with
  | [] => 0%nat
  | url :: rest =>
      ((if answered_in_full k url then 1 else 0) + answered_from (S k) rest)%nat
  end.

(** The successful lookups of a run, read off its trace. *)
Definition successful_lookups (tr : list event) : nat :=
  answered_from 0 (gets tr).

End Lookups.

(** A character [int] does not skip. *)
Definition not_blank (c : ascii) : bool := negb (Py.int_isspace c).

(** ** Sample worlds *)

Module Samples.

(** A colour page with both fields, as in the scenario of colour 2995. *)
Definition colour_page : Bs4.soup :=
  [Bs4.Tag "html" []
     [Bs4.Tag "div" [("class", Bs4.AttrList ["swatch"; "pColorCode"])]
        [Bs4.NavigableString "  2995 C "];
      Bs4.Comment "values";
      Bs4.Tag "span"
        [("id", Bs4.AttrStr "ctl00_cphContent_ctl00_divHEXValues")]
        [Bs4.Tag "b" [] [Bs4.NavigableString "00A9E0"];
         Bs4.NavigableString Py.newline]]].

(** A page of the site that shows no colour. *)
Definition bare_page : Bs4.soup :=
  [Bs4.Tag "html" [] [Bs4.NavigableString "No such colour"]].

Definition full_parser (markup : string) : Bs4.soup := colour_page.

Definition bare_parser (markup : string) : Bs4.soup := bare_page.

(** A site that answers every request with status 200. *)
Definition site_up (k : nat) (url : string) : Requests.outcome :=
  Requests.Received
    {| Requests.status_code := 200; Requests.text := "<html>" |}.

(** A site that answers every request with status 404. *)
Definition site_404 (k : nat) (url : string) : Requests.outcome :=
  Requests.Received
    {| Requests.status_code := 404; Requests.text := "Not Found" |}.

(** A network on which no request gets through. *)
Definition site_down (k : nat) (url : string) : Requests.outcome :=
  Requests.Failed.

Definition empty_disk : filesystem := fun _ => Missing.

Definition csv_path : string := "/srv/pantone_formula_guide_coated.csv".

Definition csv_file : file := {| name := csv_path; mode := "a" |}.

(** A run that has just opened its output file on an empty disk. *)
Definition opened : state := snd (open_ csv_path "a" (boot empty_disk)).

End Samples.

(** The text of a file that holds the given records, one after another. *)
Definition file_of (records : list string) : string :=
  fold_right String.append EmptyString records.

(** The notification that ends a run. *)
Definition completion : event := Print "Scraping is complete.".

(** The state after the four statements that record one colour. *)
Definition recorded (f : file) (colour_code colour_hex : string) (st : state)
  : state :=
  snd ((print ("Colour data obtained: " ++ colour_code ++ " / " ++ colour_hex) ;;
        write f (output_record colour_code colour_hex) ;;
        print ("Colour data written to " ++ CSV_FILE_NAME) ;;
        sleep 1) st).

(** What holds of a run from the moment its output file at [path] is open:
    requests are numbered as they appear in the trace, the file was opened
    once, in append mode, and is still open, the run has not announced its
    end, and the file holds what it held [before] the run followed by one
    record for each lookup answered in full. *)
Definition run_invariant
  (network : nat -> string -> Requests.outcome)
  (html_parser : string -> Bs4.soup)
  (path before : string) (st : state) : Prop :=
  sent st = List.length (gets (trace st))
  /\ opens (trace st) = [(path, "a")]
  /\ open_files st = [{| name := path; mode := "a" |}]
  /\ Forall (fun e => e <> completion) (trace st)
  /\ exists records,
       fs st path = File (before ++ file_of records)
       /\ List.length records
          = successful_lookups network html_parser (trace st)
       /\ Forall is_output_record records.

(** The identifier gets a URL from the [try] statement. *)
Definition resolves (v : Py.value) : bool :=
  match scrape_colour_try v with
  | Ok (Some _) => true
  | _ => false
  end.

(** The state right after [prepare_csv_file] has opened the file at
    [path] in a fresh run. *)
Definition prepared (fs0 : filesystem) (path : string) : state :=
  {| fs := fs_set fs0 path (File (content_of (fs0 path)));
     sent := 0;
     open_files := [{| name := path; mode := "a" |}];
     trace := [Open path "a"] |}.

(** Every request in the trace got a response with a success status. *)
Definition all_answered (network : nat -> string -> Requests.outcome)
  (tr : list event) : Prop :=
  forall k url,
    nth_error (gets tr) k = Some url ->
    exists r, network k url = Requests.Received r /\ Requests.ok r = true.

(** ** Vocabulary of the further properties *)

(** No character of [s] is a space. *)
Definition no_space (s : string) : bool :=
  all_chars (fun c => negb (Ascii.eqb c " ")) s.

(** The lines printed, in order. *)
Definition prints (tr : list event) : list string :=
  flat_map (fun e => match e with Print line => [line] | _ => [] end) tr.

(** The URL of every identifier of the two tables, names first, each
    through the builder meant for it. *)
Definition all_targets : list string :=
  List.app
    (map (fun s => COLOUR_FINDER_URL ++ "/" ++ Py.replace " " "-" s)
       PANTONE_COATED_NAMED_COLOURS)
    (map (fun n => get_colour_url_from_number COLOUR_FINDER_URL (Py.Int n))
       PANTONE_COATED_NUMBERED_COLOURS).

(** [final] is the state right after a request whose outcome accounts
    for the exception [e]: a response with a failure status for
    [TypeError], a request that did not get through for
    [RequestException]; a request accounts for no other exception. *)
Definition stopped_by (network : nat -> string -> Requests.outcome)
  (e : exn) (final : state) : Prop :=
  exists st url,
    final = requested url st
    /\ match e with
       | TypeError =>
           exists r, network (sent st) url = Requests.Received r
                     /\ Requests.ok r = false
       | RequestException => network (sent st) url = Requests.Failed
       | _ => False
       end.

(** Writes, pauses and progress lines go together: as many of each as
    lookups answered in full, every write to [path], every pause of one
    second, two lines per record. *)
Definition paced (network : nat -> string -> Requests.outcome)
  (html_parser : string -> Bs4.soup) (path : string) (tr : list event)
  : Prop :=
  let n := successful_lookups network html_parser tr in
  map fst (writes tr) = repeat path n
  /\ Forall is_output_record (map snd (writes tr))
  /\ sleeps tr = repeat 1 n
  /\ List.length (prints tr) = (2 * n)%nat.

Module MoreSamples.

(** A disk with a directory where the output file should go. *)
Definition blocked_disk : filesystem :=
  fun p => if String.eqb p Samples.csv_path then Directory else Missing.

(** A disk that already holds an output file and another file. *)
Definition used_disk : filesystem :=
  fun p =>
    if String.eqb p Samples.csv_path then File "old, 000000, "
    else if String.eqb p "/srv/notes.txt" then File "keep"
    else Missing.

(** A page whose colour-code node holds blanks only. *)
Definition blank_code_page : Bs4.soup :=
  [Bs4.Tag "div" [("class", Bs4.AttrList ["pColorCode"])]
     [Bs4.NavigableString "   "];
   Bs4.Tag "span" [("id", Bs4.AttrStr "ctl00_cphContent_ctl00_divHEXValues")]
     [Bs4.NavigableString "00A9E0"]].

Definition blank_code_parser (markup : string) : Bs4.soup := blank_code_page.

(** A site that answers the first three requests and fails the fourth
    with status 500. *)
Definition site_fails_fourth (k : nat) (url : string) : Requests.outcome :=
  if Nat.ltb k 3 then Samples.site_up k url
  else Requests.Received
         {| Requests.status_code := 500; Requests.text := "Server Error" |}.

End MoreSamples.

(** ** The records a run owes *)

Section Ledger.

Variable network : nat -> string -> Requests.outcome.
Variable html_parser : string -> Bs4.soup.

(** The record due for the [k]-th request, to [url]: the line made of
    the two fields of the page received, when the request was answered
    in full; none otherwise. *)
Definition record_due (k : nat) (url : string) : list string :=
  match network k url with
  | Requests.Received r =>
      if Requests.ok r then
        match get_colour_code (html_parser (Requests.text r)),
              get_colour_hex (html_parser (Requests.text r)) with
        | Some colour_code, Some colour_hex =>
            [output_record colour_code colour_hex]
        | _, _ => []
        end
      else []
  | Requests.Failed => []
  end.

Fixpoint records_due_from (k : nat) (urls : list string) : list string :=
  match urls with
  | [] => []
  | url :: rest => record_due k url ++ records_due_from (S k) rest
  end.

(** The records due for the requests of a trace, in order. *)
Definition records_due (tr : list event) : list string :=
  records_due_from 0 (gets tr).

(** What holds of a run once its output file at [path] is open: the file
    was opened once, in append mode; the writes of the run are, one for
    one and in order, the records due for its requests, all to [path];
    and the file holds what it held [before] the run, then those
    records. *)
Definition ledger (path before : string) (st : state) : Prop :=
  sent st = List.length (gets (trace st))
  /\ opens (trace st) = [(path, "a")]
  /\ writes (trace st) = map (fun r => (path, r)) (records_due (trace st))
  /\ fs st path = File (before ++ file_of (records_due (trace st))).

End Ledger.

(** * Properties *)

(** ** Strings *)

Lemma lstrip_split (sp : ascii -> bool) (s : string) :
  exists l, s = l ++ Py.lstrip sp s /\ all_chars sp l = true.
Proof.
  induction s as [|c s [l [Hs Hl]]]; simpl.
  - exists EmptyString. split; reflexivity.
  - destruct (sp c) eqn:Hc.
    + exists (String c l). simpl. rewrite Hc, Hl. split; [|reflexivity].
      now rewrite <- Hs.
    + exists EmptyString. split; reflexivity.
Qed.

Lemma lstrip_first (sp : ascii -> bool) (s : string) (c : ascii) :
  first_char (Py.lstrip sp s) = Some c -> sp c = false.
Proof.
  induction s as [|d s IH]; simpl; [discriminate|].
  destruct (sp d) eqn:Hd; [exact IH|].
  simpl. intros [= <-]. exact Hd.
Qed.

Lemma rstrip_split (sp : ascii -> bool) (s : string) :
  exists r, s = Py.rstrip sp s ++ r /\ all_chars sp r = true.
Proof.
  induction s as [|c s [r [Hs Hr]]]; simpl.
  - exists EmptyString. split; reflexivity.
  - destruct (Py.rstrip sp s) as [|d t] eqn:Ht.
    + destruct (sp c) eqn:Hc.
      * exists (String c r). simpl in *. rewrite Hc, Hr, Hs. split; reflexivity.
      * exists r. simpl in *. rewrite Hs. split; [reflexivity|exact Hr].
    + exists r. simpl in *. rewrite Hs at 1. split; [reflexivity|exact Hr].
Qed.

Lemma rstrip_last (sp : ascii -> bool) (s : string) (c : ascii) :
  last_char (Py.rstrip sp s) = Some c -> sp c = false.
Proof.
  induction s as [|d s IH]; simpl; [discriminate|].
  destruct (Py.rstrip sp s) as [|e t] eqn:Ht.
  - destruct (sp d) eqn:Hd; simpl; [discriminate|].
    intros [= <-]. exact Hd.
  - exact IH.
Qed.

Lemma rstrip_first (sp : ascii -> bool) (s : string) (c : ascii) :
  first_char (Py.rstrip sp s) = Some c -> first_char s = Some c.
Proof.
  destruct s as [|d s]; simpl; [discriminate|].
  destruct (Py.rstrip sp s); [destruct (sp d)|]; simpl; congruence.
Qed.

Lemma strip_trimmed (s : string) : trimmed_of s (Py.strip s).
Proof.
  unfold trimmed_of, Py.strip. repeat split.
  - destruct (lstrip_split Py.isspace s) as [l [Hl Hlsp]].
    destruct (rstrip_split Py.isspace (Py.lstrip Py.isspace s)) as [r [Hr Hrsp]].
    exists l, r. repeat split; try assumption.
    rewrite <- Hr. exact Hl.
  - intros c Hc. apply rstrip_first in Hc.
    now apply lstrip_first in Hc.
  - intros c. apply rstrip_last.
Qed.

Lemma replace_length (old new : ascii) (s : string) :
  String.length (Py.replace old new s) = String.length s.
Proof. induction s; simpl; congruence. Qed.

Lemma replace_get (old new : ascii) (s : string) (k : nat) :
  String.get k (Py.replace old new s)
  = option_map (fun c => if Ascii.eqb c old then new else c) (String.get k s).
Proof.
  revert k. induction s as [|c s IH]; intros [|k]; simpl; auto.
Qed.

(** ** Searching the tree *)

Lemma find_absent {A : Type} (p : A -> bool) (l : list A) :
  Forall (fun x => p x = false) l -> List.find p l = None.
Proof.
  induction 1 as [|x l Hx _ IH]; simpl; [reflexivity|].
  now rewrite Hx.
Qed.

Lemma find_first {A : Type} (p : A -> bool) (before after : list A) (t : A) :
  p t = true -> Forall (fun x => p x = false) before ->
  List.find p (before ++ t :: after)%list = Some t.
Proof.
  intros Ht. induction 1 as [|x l Hx _ IH]; simpl.
  - now rewrite Ht.
  - now rewrite Hx.
Qed.

Lemma find_decomposes {A : Type} (p : A -> bool) (l : list A) :
  Forall (fun x => p x = false) l
  \/ exists before t after,
       l = (before ++ t :: after)%list /\ p t = true
       /\ Forall (fun x => p x = false) before.
Proof.
  induction l as [|x l [IH | (before & t & after & Hl & Ht & Hb)]].
  - left. constructor.
  - destruct (p x) eqn:Hx.
    + right. exists [], x, l. repeat split; [exact Hx|constructor].
    + left. now constructor.
  - destruct (p x) eqn:Hx.
    + right. exists [], x, l. repeat split; [exact Hx|constructor].
    + right. exists (x :: before), t, after. subst l.
      repeat split; [exact Ht|now constructor].
Qed.

Lemma marker_absent_or_first (key against : string) (doc : Bs4.soup) :
  no_match key against doc \/ exists t, first_match key against doc t.
Proof.
  destruct (find_decomposes (Bs4.tag_matches key against) (Bs4.descendants doc))
    as [H | (before & t & after & H)].
  - now left.
  - right. exists t, before, after. exact H.
Qed.

(** ** The state a lookup leaves *)

Section ScriptFacts.

Variable network : nat -> string -> Requests.outcome.
Variable html_parser : string -> Bs4.soup.

Lemma scrape_colour_unfold (colour : Py.value) (st : state) :
  scrape_colour network html_parser colour st =
  match scrape_colour_try colour with
  | Raise e => (Raise e, st)
  | Ok None => (Raise (UnboundLocalError "colour_url"), st)
  | Ok (Some url) =>
      match network (sent st) url with
      | Requests.Failed => (Raise RequestException, requested url st)
      | Requests.Received r =>
          (Ok (if Requests.ok r
               then Some (get_colour_code (html_parser (Requests.text r)),
                          get_colour_hex (html_parser (Requests.text r)))
               else None),
           requested url st)
      end
  end.
Proof.
  unfold scrape_colour, bind, lift, local, requests_get, requested.
  destruct (scrape_colour_try colour) as [[url|]|e]; simpl; try reflexivity.
  destruct (network (sent st) url) as [r|]; simpl; [|reflexivity].
  destruct (Requests.ok r); reflexivity.
Qed.

End ScriptFacts.

Lemma try_of_name (s : string) :
  Py.int_of_str s = None ->
  scrape_colour_try (Py.Str s)
  = Ok (Some (COLOUR_FINDER_URL ++ "/" ++ Py.replace " " "-" s)).
Proof.
  intros H. unfold scrape_colour_try. simpl. now rewrite H.
Qed.

Lemma try_of_number (v : Py.value) (n : Z) :
  Py.int v = Ok n -> n <> 0 ->
  scrape_colour_try v
  = Ok (Some (COLOUR_FINDER_URL ++ "/" ++ Py.str v ++ "-C")).
Proof.
  intros H Hn. unfold scrape_colour_try. rewrite H.
  destruct (Z.eqb_spec n 0) as [E|_]; [contradiction|reflexivity].
Qed.

Lemma try_of_zero (v : Py.value) :
  Py.int v = Ok 0 -> scrape_colour_try v = Ok None.
Proof.
  intros H. unfold scrape_colour_try. now rewrite H.
Qed.

Lemma int_raises_only_ValueError (v : Py.value) (e : exn) :
  Py.int v = Raise e -> e = ValueError /\ exists s, v = Py.Str s.
Proof.
  destruct v as [n|s]; simpl; [discriminate|].
  destruct (Py.int_of_str s); [discriminate|].
  intros [= <-]. split; [reflexivity|now exists s].
Qed.

(** ** Claims about resolving an identifier *)

(** C5. A string identifier that does not parse as an integer resolves to
    the base URL, a slash, and the identifier with each space replaced by
    a hyphen (same length, every other character unchanged); that is the
    URL [scrape_colour] requests. *)
Theorem named_identifier_target (s : string) :
  Py.int_of_str s = None ->
  let target := COLOUR_FINDER_URL ++ "/" ++ Py.replace " " "-" s in
  get_colour_url_from_name COLOUR_FINDER_URL (Py.Str s) = Ok target
  /\ scrape_colour_try (Py.Str s) = Ok (Some target)
  /\ (forall network html_parser st,
        gets (trace (snd (scrape_colour network html_parser (Py.Str s) st)))
        = (gets (trace st) ++ [target])%list)
  /\ String.length (Py.replace " " "-" s) = String.length s
  /\ (forall k,
        String.get k (Py.replace " " "-" s)
        = option_map (fun c => if Ascii.eqb c " " then "-"%char else c)
                     (String.get k s)).
Proof.
  intros H target. repeat split.
  - now apply try_of_name.
  - intros network html_parser st. rewrite scrape_colour_unfold.
    rewrite (try_of_name s H). fold target.
    destruct (network (sent st) target); simpl; unfold gets;
      rewrite flat_map_app; reflexivity.
  - apply replace_length.
  - intros k. apply replace_get.
Qed.

(** The scenario of the specification: "Black C". *)
Lemma named_identifier_target_witness :
  scrape_colour_try (Py.Str "Black C")
  = Ok (Some "https://www.pantone.com/color-finder/Black-C").
Proof.
  exact (proj1 (proj2 (named_identifier_target "Black C" eq_refl))).
Defined.

(** ** [str] of an integer reads back through [int] *)

Lemma int_digits_acc (u : Decimal.uint) (acc : positive) :
  Py.int_digits (Z.pos acc) (NilEmpty.string_of_uint u)
  = Some (Z.pos (Pos.of_uint_acc u acc)).
Proof.
  revert acc.
  induction u as [|u IH|u IH|u IH|u IH|u IH|u IH|u IH|u IH|u IH|u IH];
    intros acc; [reflexivity|..];
    cbn [NilEmpty.string_of_uint Py.int_digits Pos.of_uint_acc].
  all: match goal with
       | |- context [Py.isdigit ?c] => change (Py.isdigit c) with true
       end; cbv iota.
  all: match goal with
       | |- context [Py.digit ?c] =>
           let v := eval vm_compute in (Py.digit c) in
           change (Py.digit c) with v
       end.
  all: match goal with
       | |- Py.int_digits ?z _ = Some (Z.pos (Pos.of_uint_acc _ ?p)) =>
           replace z with (Z.pos p) by lia
       end; apply IH.
Qed.

Lemma int_digits_uint (u : Decimal.uint) :
  Py.int_digits 0 (NilEmpty.string_of_uint u) = Some (Z.of_N (Pos.of_uint u)).
Proof.
  induction u as [|u IH|u IH|u IH|u IH|u IH|u IH|u IH|u IH|u IH|u IH];
    [reflexivity|exact IH|..];
    cbn [NilEmpty.string_of_uint Py.int_digits Pos.of_uint];
    match goal with
    | |- context [Py.isdigit ?c] => change (Py.isdigit c) with true
    end; cbv iota; apply (int_digits_acc u).
Qed.

Lemma int_literal_uint (u : Decimal.uint) :
  u <> Decimal.Nil ->
  Py.int_literal (NilEmpty.string_of_uint u) = Some (Z.of_N (Pos.of_uint u)).
Proof.
  intros Hu. rewrite <- int_digits_uint.
  destruct u; [contradiction|reflexivity..].
Qed.

Lemma rstrip_no_blank (s : string) :
  all_chars not_blank s = true -> Py.rstrip Py.int_isspace s = s.
Proof.
  induction s as [|c s IH]; simpl; [reflexivity|].
  intros H. apply andb_prop in H as [Hc Hs]. rewrite (IH Hs).
  unfold not_blank in Hc. apply negb_true_iff in Hc. rewrite Hc.
  now destruct s.
Qed.

Lemma uint_no_blank (u : Decimal.uint) :
  all_chars not_blank (NilEmpty.string_of_uint u) = true.
Proof. induction u; simpl; auto. Qed.

Lemma int_of_str_pos (p : positive) :
  Py.int_of_str (NilEmpty.string_of_uint (Pos.to_uint p)) = Some (Z.pos p).
Proof.
  pose proof (DecimalPos.Unsigned.to_uint_nonnil p) as Hn.
  pose proof (DecimalPos.Unsigned.of_to p) as Hp.
  pose proof (int_literal_uint _ Hn) as Hl. rewrite Hp in Hl.
  pose proof (uint_no_blank (Pos.to_uint p)) as Hb.
  unfold Py.int_of_str.
  destruct (Pos.to_uint p) as [|u|u|u|u|u|u|u|u|u|u]; [contradiction|..];
    cbn [NilEmpty.string_of_uint Py.lstrip] in *;
    change (Py.int_isspace _) with false; cbv iota;
    rewrite (rstrip_no_blank _ Hb); exact Hl.
Qed.

Lemma int_of_str_neg (p : positive) :
  Py.int_of_str (String "-" (NilEmpty.string_of_uint (Pos.to_uint p)))
  = Some (Z.neg p).
Proof.
  pose proof (DecimalPos.Unsigned.to_uint_nonnil p) as Hn.
  pose proof (DecimalPos.Unsigned.of_to p) as Hp.
  pose proof (int_literal_uint _ Hn) as Hl. rewrite Hp in Hl.
  pose proof (uint_no_blank (Pos.to_uint p)) as Hb.
  unfold Py.int_of_str. cbn [Py.lstrip].
  change (Py.int_isspace "-") with false; cbv iota.
  rewrite rstrip_no_blank by (simpl; exact Hb).
  cbv iota beta. rewrite Hl. reflexivity.
Qed.

Lemma int_of_str_of_int (n : Z) : Py.int (Py.Str (Py.str (Py.Int n))) = Ok n.
Proof.
  unfold Py.int, Py.str, Z.to_int, NilZero.string_of_int.
  destruct n as [|p|p].
  - reflexivity.
  - unfold NilZero.string_of_uint.
    pose proof (DecimalPos.Unsigned.to_uint_nonnil p) as Hn.
    pose proof (int_of_str_pos p) as H.
    destruct (Pos.to_uint p); [contradiction|now rewrite H..].
  - unfold NilZero.string_of_uint.
    pose proof (DecimalPos.Unsigned.to_uint_nonnil p) as Hn.
    pose proof (int_of_str_neg p) as H.
    destruct (Pos.to_uint p); [contradiction|now rewrite H..].
Qed.

Lemma int_of_own_text (v : Py.value) (n : Z) :
  Py.int v = Ok n -> Py.int (Py.Str (Py.str v)) = Ok n.
Proof.
  destruct v as [m|s]; [|exact (fun H => H)].
  simpl Py.int at 1. intros [= <-]. apply int_of_str_of_int.
Qed.

Lemma gets_after_lookup
  (network : nat -> string -> Requests.outcome)
  (html_parser : string -> Bs4.soup) (v : Py.value) (url : string)
  (st : state) :
  scrape_colour_try v = Ok (Some url) ->
  gets (trace (snd (scrape_colour network html_parser v st)))
  = (gets (trace st) ++ [url])%list.
Proof.
  intros H. rewrite scrape_colour_unfold, H.
  destruct (network (sent st) url); simpl; unfold gets;
    rewrite flat_map_app; reflexivity.
Qed.

(** C4, as stated, fails: the string identifier "+21" parses as the
    integer 21, whose decimal digits are "21", yet it resolves to the URL
    that ends in "+21-C": the text of the identifier, sign included. *)
Lemma numeric_string_keeps_its_text :
  Py.int (Py.Str "+21") = Ok 21
  /\ Py.str (Py.Int 21) = "21"
  /\ scrape_colour_try (Py.Str "+21")
     = Ok (Some "https://www.pantone.com/color-finder/+21-C")
  /\ scrape_colour_try (Py.Str "+21")
     <> Ok (Some (COLOUR_FINDER_URL ++ "/" ++ Py.str (Py.Int 21) ++ "-C")).
Proof.
  repeat split; try reflexivity. vm_compute. discriminate.
Qed.

(** C4, amended. An identifier whose integer value [n] is not zero
    resolves to the base URL, a slash, the text of the identifier as
    [str] gives it, and "-C": for an integer that text is its decimal
    numeral, for a string it is the string itself, unchanged.  In both
    cases the text reads back as [n], and the URL is the one
    [scrape_colour] requests. *)
Theorem numeric_identifier_target (v : Py.value) (n : Z) :
  Py.int v = Ok n -> n <> 0 ->
  let target := COLOUR_FINDER_URL ++ "/" ++ Py.str v ++ "-C" in
  get_colour_url_from_number COLOUR_FINDER_URL (Py.Str (Py.str v)) = target
  /\ scrape_colour_try v = Ok (Some target)
  /\ (forall network html_parser st,
        gets (trace (snd (scrape_colour network html_parser v st)))
        = (gets (trace st) ++ [target])%list)
  /\ Py.int (Py.Str (Py.str v)) = Ok n.
Proof.
  intros H Hn target. split; [reflexivity|].
  pose proof (try_of_number v n H Hn) as Ht. fold target in Ht.
  split; [exact Ht|]. split.
  - intros network html_parser st. now apply gets_after_lookup.
  - now apply int_of_own_text.
Qed.

(** The scenario of the specification: identifier "2995". *)
Lemma numeric_identifier_target_witness :
  scrape_colour_try (Py.Str "2995")
  = Ok (Some "https://www.pantone.com/color-finder/2995-C").
Proof.
  refine (proj1 (proj2 (numeric_identifier_target (Py.Str "2995") 2995 _ _))).
  - reflexivity.
  - lia.
Defined.

(** C10. An identifier whose integer value is zero (the integer 0, or a
    string such as "0" that parses as zero) leaves [colour_url] unbound,
    and [scrape_colour] raises before it sends any request: the state is
    untouched.  Every other identifier gets a URL. *)
Theorem zero_identifier_raises (v : Py.value) :
  (Py.int v = Ok 0 ->
   scrape_colour_try v = Ok None
   /\ forall network html_parser st,
        scrape_colour network html_parser v st
        = (Raise (UnboundLocalError "colour_url"), st))
  /\ (Py.int v <> Ok 0 -> exists url, scrape_colour_try v = Ok (Some url)).
Proof.
  split.
  - intros H. pose proof (try_of_zero v H) as Ht. split; [exact Ht|].
    intros network html_parser st. now rewrite scrape_colour_unfold, Ht.
  - intros H. destruct (Py.int v) as [n|e] eqn:Hv.
    + assert (Hn : n <> 0) by congruence.
      eexists. exact (try_of_number v n Hv Hn).
    + destruct (int_raises_only_ValueError v e Hv) as [-> [s ->]].
      eexists. apply try_of_name.
      simpl in Hv. destruct (Py.int_of_str s); [discriminate|reflexivity].
Qed.

Lemma zero_identifier_raises_witness :
  scrape_colour Samples.site_up Samples.full_parser (Py.Int 0)
    (boot Samples.empty_disk)
  = (Raise (UnboundLocalError "colour_url"), boot Samples.empty_disk)
  /\ scrape_colour Samples.site_up Samples.full_parser (Py.Str "0")
       (boot Samples.empty_disk)
     = (Raise (UnboundLocalError "colour_url"), boot Samples.empty_disk)
  /\ exists url, scrape_colour_try (Py.Int 100) = Ok (Some url).
Proof.
  split; [|split].
  - exact (proj2 (proj1 (zero_identifier_raises (Py.Int 0)) eq_refl) _ _ _).
  - exact (proj2 (proj1 (zero_identifier_raises (Py.Str "0")) eq_refl) _ _ _).
  - apply (proj2 (zero_identifier_raises (Py.Int 100))). discriminate.
Defined.

(** ** Claims about extraction *)

Lemma extract_absent (key against : string) (doc : Bs4.soup) :
  no_match key against doc -> Bs4.find key against doc = None.
Proof. apply find_absent. Qed.

Lemma extract_present (key against : string) (doc : Bs4.soup) (t : Bs4.node) :
  first_match key against doc t -> Bs4.find key against doc = Some t.
Proof.
  intros (before & after & Hd & Ht & Hb).
  unfold Bs4.find. rewrite Hd. now apply find_first.
Qed.

(** C6. The two extractors are total functions of the document: each
    returns the absent value when no node carries its marker, and the
    trimmed text of the first node that carries it otherwise, whatever
    the other marker does; every document is in one case or the other. *)
Theorem extraction_tolerates_absence (soup : Bs4.soup) :
  (no_match "class" "pColorCode" soup -> get_colour_code soup = None)
  /\ (no_match "id" "ctl00_cphContent_ctl00_divHEXValues" soup ->
      get_colour_hex soup = None)
  /\ (forall t, first_match "class" "pColorCode" soup t ->
        get_colour_code soup = Some (Py.strip (Bs4.text t))
        /\ trimmed_of (Bs4.text t) (Py.strip (Bs4.text t)))
  /\ (forall t,
        first_match "id" "ctl00_cphContent_ctl00_divHEXValues" soup t ->
        get_colour_hex soup = Some (Py.strip (Bs4.text t))
        /\ trimmed_of (Bs4.text t) (Py.strip (Bs4.text t)))
  /\ (no_match "class" "pColorCode" soup
      \/ exists t, first_match "class" "pColorCode" soup t)
  /\ (no_match "id" "ctl00_cphContent_ctl00_divHEXValues" soup
      \/ exists t,
           first_match "id" "ctl00_cphContent_ctl00_divHEXValues" soup t).
Proof.
  unfold get_colour_code, get_colour_hex. repeat apply conj.
  - intros H. now rewrite (extract_absent _ _ _ H).
  - intros H. now rewrite (extract_absent _ _ _ H).
  - intros t H. rewrite (extract_present _ _ _ _ H).
    split; [reflexivity|apply strip_trimmed].
  - intros t H. rewrite (extract_present _ _ _ _ H).
    split; [reflexivity|apply strip_trimmed].
  - apply marker_absent_or_first.
  - apply marker_absent_or_first.
Qed.

(** The page of colour 2995 gives both fields, trimmed; a page without
    the markers gives neither. *)
Lemma extraction_tolerates_absence_witness :
  get_colour_code Samples.colour_page = Some "2995 C"
  /\ get_colour_hex Samples.colour_page = Some "00A9E0"
  /\ get_colour_code Samples.bare_page = None
  /\ get_colour_hex Samples.bare_page = None.
Proof.
  pose proof (extraction_tolerates_absence Samples.colour_page)
    as (_ & _ & Hcode & Hhex & _).
  pose proof (extraction_tolerates_absence Samples.bare_page)
    as (Hnocode & Hnohex & _).
  repeat apply conj.
  - refine (proj1 (Hcode
      (Bs4.Tag "div" [("class", Bs4.AttrList ["swatch"; "pColorCode"])]
         [Bs4.NavigableString "  2995 C "]) _)).
    eexists [_], _. split; [reflexivity|]. split; [reflexivity|].
    repeat constructor.
  - refine (proj1 (Hhex
      (Bs4.Tag "span"
         [("id", Bs4.AttrStr "ctl00_cphContent_ctl00_divHEXValues")]
         [Bs4.Tag "b" [] [Bs4.NavigableString "00A9E0"];
          Bs4.NavigableString Py.newline]) _)).
    eexists [_; _; _; _], _. split; [reflexivity|]. split; [reflexivity|].
    repeat constructor.
  - apply Hnocode. repeat constructor.
  - apply Hnohex. repeat constructor.
Defined.

(** ** Claims about a lookup whose fetch fails *)

(** C1 fails on the code. When the site answers with a 4xx or 5xx status,
    [scrape_colour] falls off its end and returns the single value [None],
    not a pair of two absent values; when the request itself fails, the
    exception of [requests.get] leaves [scrape_colour] uncaught. *)
Theorem scrape_colour_on_failed_fetch
  (network : nat -> string -> Requests.outcome)
  (html_parser : string -> Bs4.soup) (v : Py.value) (url : string)
  (st : state) :
  scrape_colour_try v = Ok (Some url) ->
  (forall r, network (sent st) url = Requests.Received r ->
             Requests.ok r = false ->
             fst (scrape_colour network html_parser v st) = Ok None
             /\ fst (scrape_colour network html_parser v st)
                <> Ok (Some (None, None)))
  /\ (network (sent st) url = Requests.Failed ->
      fst (scrape_colour network html_parser v st) = Raise RequestException).
Proof.
  intros Ht. rewrite scrape_colour_unfold, Ht. split.
  - intros r -> Hr. simpl. rewrite Hr. split; [reflexivity|discriminate].
  - intros ->. reflexivity.
Qed.

Lemma scrape_colour_on_failed_fetch_witness :
  fst (scrape_colour Samples.site_404 Samples.full_parser (Py.Int 100)
         (boot Samples.empty_disk)) = Ok None
  /\ fst (scrape_colour Samples.site_down Samples.full_parser (Py.Int 100)
            (boot Samples.empty_disk)) = Raise RequestException.
Proof.
  split.
  - refine (proj1 (proj1 (scrape_colour_on_failed_fetch Samples.site_404
      Samples.full_parser (Py.Int 100)
      "https://www.pantone.com/color-finder/100-C"
      (boot Samples.empty_disk) eq_refl) _ eq_refl eq_refl)).
  - refine (proj2 (scrape_colour_on_failed_fetch Samples.site_down
      Samples.full_parser (Py.Int 100)
      "https://www.pantone.com/color-finder/100-C"
      (boot Samples.empty_disk) eq_refl) eq_refl).
Defined.

(** ** One pass of the loop body *)

Lemma append_assoc (a b c : string) : (a ++ b) ++ c = a ++ b ++ c.
Proof. induction a as [|x a IH]; simpl; [reflexivity|now rewrite IH]. Qed.

Lemma append_empty_r (a : string) : a ++ EmptyString = a.
Proof. induction a as [|x a IH]; simpl; [reflexivity|now rewrite IH]. Qed.

Lemma file_of_app (a b : list string) :
  file_of (a ++ b) = file_of a ++ file_of b.
Proof.
  induction a as [|x a IH]; simpl; [reflexivity|].
  now rewrite IH, append_assoc.
Qed.

Section BodyFacts.

Variable network : nat -> string -> Requests.outcome.
Variable html_parser : string -> Bs4.soup.

Lemma main_body_unfold (f : file) (i : Py.value) (st : state) :
  main_body network html_parser f i st =
  match scrape_colour network html_parser i st with
  | (Raise e, st1) => (Raise e, st1)
  | (Ok None, st1) => (Raise TypeError, st1)
  | (Ok (Some (Some colour_code, Some colour_hex)), st1) =>
      (Ok tt, recorded f colour_code colour_hex st1)
  | (Ok (Some _), st1) => (Ok tt, st1)
  end.
Proof.
  unfold main_body, bind at 1.
  destruct (scrape_colour network html_parser i st)
    as [[[[[colour_code|] [colour_hex|]]|]|e] st1]; reflexivity.
Qed.

Lemma answered_from_app (k : nat) (a b : list string) :
  answered_from network html_parser k (a ++ b)
  = (answered_from network html_parser k a
     + answered_from network html_parser (k + List.length a) b)%nat.
Proof.
  revert k. induction a as [|url a IH]; intros k; simpl.
  - now rewrite Nat.add_0_r.
  - rewrite IH. replace (S k + List.length a)%nat
      with (k + S (List.length a))%nat by lia. lia.
Qed.

Lemma successful_lookups_request (tr : list event) (url : string) :
  successful_lookups network html_parser (tr ++ [Get url])
  = (successful_lookups network html_parser tr
     + if answered_in_full network html_parser (List.length (gets tr)) url
       then 1 else 0)%nat.
Proof.
  unfold successful_lookups, gets. rewrite flat_map_app. simpl.
  rewrite answered_from_app. simpl. lia.
Qed.

End BodyFacts.

(** The trace of [recorded]. *)
Lemma recorded_trace (f : file) (colour_code colour_hex : string) (st : state) :
  trace (recorded f colour_code colour_hex st)
  = (trace st
     ++ [Print ("Colour data obtained: " ++ colour_code ++ " / " ++ colour_hex);
         Write (name f) (output_record colour_code colour_hex);
         Print ("Colour data written to " ++ CSV_FILE_NAME);
         Sleep 1])%list.
Proof.
  unfold recorded, bind, print, write, sleep, log. simpl.
  destruct (fs st (name f)); simpl; rewrite <- !app_assoc; reflexivity.
Qed.

Lemma recorded_sent (f : file) (colour_code colour_hex : string) (st : state) :
  sent (recorded f colour_code colour_hex st) = sent st.
Proof.
  unfold recorded, bind, print, write, sleep, log. simpl.
  destruct (fs st (name f)); reflexivity.
Qed.

Lemma recorded_open_files (f : file) (colour_code colour_hex : string)
  (st : state) :
  open_files (recorded f colour_code colour_hex st) = open_files st.
Proof.
  unfold recorded, bind, print, write, sleep, log. simpl.
  destruct (fs st (name f)); reflexivity.
Qed.

Lemma recorded_fs (f : file) (colour_code colour_hex : string) (st : state)
  (content : string) :
  fs st (name f) = File content ->
  fs (recorded f colour_code colour_hex st) (name f)
  = File (content ++ output_record colour_code colour_hex).
Proof.
  intros H. unfold recorded, bind, print, write, sleep, log. simpl.
  rewrite H. simpl. unfold fs_set. now rewrite String.eqb_refl.
Qed.

Ltac lookup_cases network html_parser i st :=
  rewrite ?main_body_unfold, ?scrape_colour_unfold;
  let url := fresh "url" in
  let r := fresh "r" in
  let Hnet := fresh "Hnet" in
  let Hok := fresh "Hok" in
  let Hcode := fresh "Hcode" in
  let Hhex := fresh "Hhex" in
  destruct (scrape_colour_try i) as [[url|]|?];
  [ destruct (network (sent st) url) as [r|] eqn:Hnet;
    [ destruct (Requests.ok r) eqn:Hok;
      [ destruct (get_colour_code (html_parser (Requests.text r))) eqn:Hcode;
        destruct (get_colour_hex (html_parser (Requests.text r))) eqn:Hhex
      | ]
    | ]
  | | ];
  cbn [fst snd].

Ltac project_trace :=
  rewrite ?recorded_trace; cbn [trace requested];
  unfold gets, opens, writes, sleeps;
  rewrite ?flat_map_app; cbn [flat_map app];
  rewrite ?app_nil_r.

(** ** Claims about what one identifier adds to the sink *)

(** C3. For the identifier the loop is at: when the lookup returned both
    fields, the body ends normally and exactly one write is issued, of
    the text "{code}, {hex}, " and a line feed, which lands at the end of
    the open file; in every other case (a field absent, no pair returned,
    an exception) nothing is written and the file system is as before. *)
Theorem one_record_per_complete_lookup
  (network : nat -> string -> Requests.outcome)
  (html_parser : string -> Bs4.soup) (f : file) (i : Py.value) (st : state) :
  let done := main_body network html_parser f i st in
  match fst (scrape_colour network html_parser i st) with
  | Ok (Some (Some colour_code, Some colour_hex)) =>
      let record := colour_code ++ ", " ++ colour_hex ++ ", " ++ Py.newline in
      fst done = Ok tt
      /\ writes (trace (snd done))
         = (writes (trace st) ++ [(name f, record)])%list
      /\ (forall content,
            fs st (name f) = File content ->
            fs (snd done) (name f) = File (content ++ record))
  | _ =>
      writes (trace (snd done)) = writes (trace st)
      /\ fs (snd done) = fs st
  end.
Proof.
  intros done. subst done.
  lookup_cases network html_parser i st;
    try (split; [now project_trace|reflexivity]).
  split; [reflexivity|]. split.
  - now project_trace.
  - intros content H. now apply recorded_fs.
Qed.

(** The scenario of the specification: code "2995 C" and hex "00A9E0"
    give the line "2995 C, 00A9E0, " in a file that was empty. *)
Lemma one_record_per_complete_lookup_witness :
  fs (snd (main_body Samples.site_up Samples.full_parser Samples.csv_file
             (Py.Str "2995") Samples.opened)) Samples.csv_path
  = File (EmptyString ++ "2995 C" ++ ", " ++ "00A9E0" ++ ", " ++ Py.newline).
Proof.
  exact (proj2 (proj2 (one_record_per_complete_lookup Samples.site_up
    Samples.full_parser Samples.csv_file (Py.Str "2995") Samples.opened))
    EmptyString eq_refl).
Defined.

(** ** Claims about pacing *)

(** C7, as stated, fails: on a site that answers with a page without the
    two fields, the body for identifier 100 sends its request, ends
    normally and does not sleep. *)
Lemma no_delay_after_incomplete_lookup :
  let done :=
    main_body Samples.site_up Samples.bare_parser Samples.csv_file
      (Py.Int 100) Samples.opened in
  fst done = Ok tt
  /\ gets (trace (snd done)) = ["https://www.pantone.com/color-finder/100-C"]
  /\ sleeps (trace (snd done)) = [].
Proof. vm_compute. repeat split. Qed.

(** C7, amended. The body sleeps once, for one second, exactly when the
    lookup returned both fields; after any other lookup it does not
    sleep. *)
Theorem delay_follows_a_record
  (network : nat -> string -> Requests.outcome)
  (html_parser : string -> Bs4.soup) (f : file) (i : Py.value) (st : state) :
  sleeps (trace (snd (main_body network html_parser f i st)))
  = (sleeps (trace st)
     ++ match fst (scrape_colour network html_parser i st) with
        | Ok (Some (Some _, Some _)) => [1]
        | _ => []
        end)%list.
Proof.
  lookup_cases network html_parser i st; now project_trace.
Qed.

(** ** The invariant of a run *)

Section RunFacts.

Variable network : nat -> string -> Requests.outcome.
Variable html_parser : string -> Bs4.soup.
Variable path before : string.

Local Abbreviation csv_file := {| name := path; mode := "a" |}.
Local Abbreviation holds := (run_invariant network html_parser path before).

Lemma not_completion_snoc (tr : list event) (e : event) :
  Forall (fun e => e <> completion) tr -> e <> completion ->
  Forall (fun e => e <> completion) (tr ++ [e]).
Proof.
  intros Htr He. apply Forall_app. split; [exact Htr|].
  constructor; [exact He|constructor].
Qed.

Lemma request_keeps_invariant (url : string) (st : state) :
  answered_in_full network html_parser (sent st) url = false ->
  holds st -> holds (requested url st).
Proof.
  intros Hno (Hsent & Hopens & Hfiles & Hquiet & records & Hfs & Hlen & Hrec).
  unfold holds, run_invariant. cbn [requested sent trace fs open_files].
  repeat apply conj.
  - unfold gets. rewrite flat_map_app, length_app. simpl.
    unfold gets in Hsent. lia.
  - unfold opens. rewrite flat_map_app. simpl. now rewrite app_nil_r.
  - exact Hfiles.
  - apply not_completion_snoc; [exact Hquiet|discriminate].
  - exists records. repeat apply conj; [exact Hfs| |exact Hrec].
    rewrite successful_lookups_request, <- Hsent, Hno. lia.
Qed.

Lemma record_keeps_invariant (url colour_code colour_hex : string)
  (st : state) :
  answered_in_full network html_parser (sent st) url = true ->
  holds st ->
  holds (recorded csv_file colour_code colour_hex (requested url st)).
Proof.
  intros Hyes (Hsent & Hopens & Hfiles & Hquiet & records & Hfs & Hlen & Hrec).
  unfold holds, run_invariant.
  rewrite recorded_trace, recorded_sent, recorded_open_files.
  cbn [requested sent trace open_files].
  repeat apply conj.
  - unfold gets. rewrite !flat_map_app, !length_app. simpl.
    unfold gets in Hsent. lia.
  - unfold opens. rewrite !flat_map_app. simpl. now rewrite !app_nil_r.
  - exact Hfiles.
  - apply Forall_app. split.
    + apply not_completion_snoc; [exact Hquiet|discriminate].
    + repeat constructor; discriminate.
  - exists (records ++ [output_record colour_code colour_hex])%list.
    repeat apply conj.
    + pose proof (recorded_fs csv_file colour_code colour_hex
                    (requested url st) (before ++ file_of records) Hfs) as Hw.
      change (name csv_file) with path in Hw. rewrite Hw.
      rewrite file_of_app. cbn [file_of fold_right].
      now rewrite append_empty_r, append_assoc.
    + rewrite length_app. cbn [List.length].
      unfold successful_lookups, gets. rewrite !flat_map_app.
      cbn [flat_map app]. rewrite !app_nil_r.
      change (flat_map _ (trace st)) with (gets (trace st)).
      rewrite answered_from_app. cbn [answered_from].
      rewrite Nat.add_0_l, <- Hsent, Hyes.
      unfold successful_lookups in Hlen. lia.
    + apply Forall_app. split; [exact Hrec|].
      constructor; [|constructor]. now exists colour_code, colour_hex.
Qed.

Lemma main_body_keeps_invariant (i : Py.value) (st : state) :
  holds st -> holds (snd (main_body network html_parser csv_file i st)).
Proof.
  intros H.
  lookup_cases network html_parser i st; try exact H;
    try (apply request_keeps_invariant; [|exact H];
         unfold answered_in_full; rewrite Hnet; cbn;
         rewrite ?Hok, ?Hcode, ?Hhex; reflexivity).
  apply record_keeps_invariant; [|exact H].
  unfold answered_in_full. now rewrite Hnet, Hok, Hcode, Hhex.
Qed.

Lemma for_each_keeps_invariant {A : Type} (g : A -> Py.value) (l : list A)
  (st : state) :
  holds st ->
  holds (snd (for_each l
                (fun i => main_body network html_parser csv_file (g i)) st)).
Proof.
  revert st. induction l as [|x l IH]; intros st H; [exact H|].
  cbn [for_each]. unfold bind at 1.
  pose proof (main_body_keeps_invariant (g x) st H) as H1.
  destruct (main_body network html_parser csv_file (g x) st) as [[[]|e] st1];
    cbn [snd] in *; [now apply IH|exact H1].
Qed.

Lemma all_answered_request (url : string) (r : Requests.Response)
  (st : state) (tr : list event) :
  sent st = List.length (gets (trace st)) ->
  all_answered network (trace st) ->
  network (sent st) url = Requests.Received r -> Requests.ok r = true ->
  gets tr = (gets (trace st) ++ [url])%list ->
  all_answered network tr.
Proof.
  intros Hsent Hall Hnet Hok Htr k u Hk. rewrite Htr in Hk.
  destruct (Nat.lt_ge_cases k (List.length (gets (trace st)))) as [Hlt|Hge].
  - rewrite nth_error_app1 in Hk by exact Hlt. now apply Hall.
  - rewrite nth_error_app2 in Hk by exact Hge.
    destruct (k - List.length (gets (trace st)))%nat as [|j] eqn:Hj;
      cbn in Hk; [|now destruct j].
    injection Hk as <-. replace k with (sent st) by lia. now exists r.
Qed.

Lemma main_body_ok_answered (f : file) (i : Py.value) (st : state) :
  sent st = List.length (gets (trace st)) ->
  all_answered network (trace st) ->
  fst (main_body network html_parser f i st) = Ok tt ->
  all_answered network (trace (snd (main_body network html_parser f i st))).
Proof.
  intros Hsent Hall.
  lookup_cases network html_parser i st; try discriminate; intros _;
    apply (all_answered_request url r st _ Hsent Hall Hnet Hok);
    now project_trace.
Qed.

Lemma for_each_ok_answered {A : Type} (g : A -> Py.value) (l : list A)
  (st : state) :
  holds st ->
  all_answered network (trace st) ->
  fst (for_each l (fun i => main_body network html_parser csv_file (g i)) st)
  = Ok tt ->
  all_answered network
    (trace (snd (for_each l
                   (fun i => main_body network html_parser csv_file (g i))
                   st))).
Proof.
  revert st. induction l as [|x l IH]; intros st H Hall; [intros _; exact Hall|].
  cbn [for_each]. unfold bind.
  pose proof (main_body_keeps_invariant (g x) st H) as H1.
  pose proof (main_body_ok_answered csv_file (g x) st (proj1 H) Hall) as H2.
  destruct (main_body network html_parser csv_file (g x) st) as [[[]|e] st1];
    cbn [fst snd] in *; [|discriminate].
  apply IH; [exact H1|now apply H2].
Qed.

Hypothesis always_answers :
  forall k url, exists r,
    network k url = Requests.Received r /\ Requests.ok r = true.

Lemma main_body_completes (f : file) (i : Py.value) (st : state) :
  resolves i = true ->
  fst (main_body network html_parser f i st) = Ok tt.
Proof.
  unfold resolves. intros Hi.
  rewrite main_body_unfold, scrape_colour_unfold.
  destruct (scrape_colour_try i) as [[url|]|?]; try discriminate.
  destruct (always_answers (sent st) url) as (r & -> & ->).
  destruct (get_colour_code (html_parser (Requests.text r))),
    (get_colour_hex (html_parser (Requests.text r))); reflexivity.
Qed.

Lemma for_each_completes {A : Type} (g : A -> Py.value) (f : file)
  (l : list A) (st : state) :
  Forall (fun a => resolves (g a) = true) l ->
  fst (for_each l (fun i => main_body network html_parser f (g i)) st) = Ok tt.
Proof.
  intros Hl. revert st. induction Hl as [|x l Hx _ IH]; intros st.
  - reflexivity.
  - cbn [for_each]. unfold bind at 1.
    pose proof (main_body_completes f (g x) st Hx) as H1.
    destruct (main_body network html_parser f (g x) st) as [[[]|e] st1];
      cbn [fst] in H1; [apply IH|discriminate].
Qed.

End RunFacts.

Lemma names_resolve :
  Forall (fun s => resolves (Py.Str s) = true) PANTONE_COATED_NAMED_COLOURS.
Proof.
  apply Forall_forall. intros s Hs.
  assert (H : forallb (fun s => resolves (Py.Str s))
                PANTONE_COATED_NAMED_COLOURS = true) by (vm_compute; reflexivity).
  rewrite forallb_forall in H. now apply H.
Qed.

Lemma range_bounds (lo hi n : Z) : In n (Py.range lo hi) -> lo <= n < hi.
Proof.
  unfold Py.range. rewrite in_map_iff. intros (k & <- & Hk).
  apply in_seq in Hk. lia.
Qed.

Lemma numbers_resolve :
  Forall (fun n => resolves (Py.Int n) = true) PANTONE_COATED_NUMBERED_COLOURS.
Proof.
  apply Forall_forall. intros n Hn. apply range_bounds in Hn.
  unfold resolves. rewrite (try_of_number (Py.Int n) n eq_refl); [reflexivity|lia].
Qed.

(** ** A whole run *)

Section WholeRun.

Variable network : nat -> string -> Requests.outcome.
Variable html_parser : string -> Bs4.soup.
Variable OUTPUT_DIR : string.
Variable fs0 : filesystem.

Local Abbreviation path := (os_path_join OUTPUT_DIR CSV_FILE_NAME).

Hypothesis path_free : fs0 path <> Directory.

Lemma prepare_csv_file_opens :
  prepare_csv_file OUTPUT_DIR CSV_FILE_NAME (boot fs0)
  = (Ok {| name := path; mode := "a" |}, prepared fs0 path).
Proof.
  unfold prepare_csv_file, prepared.
  remember (os_path_join OUTPUT_DIR CSV_FILE_NAME) as p eqn:Hp. clear Hp.
  unfold bind, os_path_exists, os_path_isfile, ret, raise, local, open_, log,
    boot.
  change (String.eqb "a" "a") with true. cbv iota.
  cbn [fs sent trace open_files].
  destruct (fs0 p) eqn:E; [| |exfalso; apply path_free; reflexivity];
    do 3 (cbn; rewrite ?E); reflexivity.
Qed.

Lemma prepared_invariant :
  run_invariant network html_parser path (content_of (fs0 path))
    (prepared fs0 path).
Proof.
  unfold run_invariant, prepared. cbn [fs sent open_files trace].
  repeat apply conj; try reflexivity.
  - repeat constructor. discriminate.
  - exists []. repeat apply conj; [|reflexivity|constructor].
    unfold fs_set. rewrite String.eqb_refl. cbn [file_of fold_right].
    now rewrite append_empty_r.
Qed.

(** A run ends in one of two ways: it announces completion as its last
    act, or it stops on an exception; the invariant holds of the state
    before that last act. *)
Lemma main_run :
  exists st,
    run_invariant network html_parser path (content_of (fs0 path)) st
    /\ (main network html_parser OUTPUT_DIR (boot fs0)
        = (Ok tt, log completion st)
        \/ exists e,
             main network html_parser OUTPUT_DIR (boot fs0) = (Raise e, st)).
Proof.
  unfold main, bind. rewrite prepare_csv_file_opens.
  pose proof (for_each_keeps_invariant network html_parser path
                (content_of (fs0 path)) Py.Str PANTONE_COATED_NAMED_COLOURS
                (prepared fs0 path) prepared_invariant) as H1.
  destruct (for_each PANTONE_COATED_NAMED_COLOURS _ (prepared fs0 path))
    as [[[]|e] st1]; cbn [snd] in H1.
  - pose proof (for_each_keeps_invariant network html_parser path
                  (content_of (fs0 path)) Py.Int
                  PANTONE_COATED_NUMBERED_COLOURS st1 H1) as H2.
    destruct (for_each PANTONE_COATED_NUMBERED_COLOURS _ st1)
      as [[[]|e] st2]; cbn [snd] in H2.
    + exists st2. split; [exact H2|]. left. reflexivity.
    + exists st2. split; [exact H2|]. right. now exists e.
  - exists st1. split; [exact H1|]. right. now exists e.
Qed.

End WholeRun.

Lemma for_each_halts {A : Type} (body : A -> M unit) (x : A) (l : list A)
  (st st' : state) (e : exn) :
  body x st = (Raise e, st') -> for_each (x :: l) body st = (Raise e, st').
Proof. intros H. cbn [for_each]. unfold bind. now rewrite H. Qed.

Lemma main_completes
  (network : nat -> string -> Requests.outcome)
  (html_parser : string -> Bs4.soup) (OUTPUT_DIR : string)
  (fs0 : filesystem) :
  fs0 (os_path_join OUTPUT_DIR CSV_FILE_NAME) <> Directory ->
  (forall k url, exists r,
      network k url = Requests.Received r /\ Requests.ok r = true) ->
  fst (main network html_parser OUTPUT_DIR (boot fs0)) = Ok tt.
Proof.
  intros Hfree Hup. unfold main, bind.
  rewrite prepare_csv_file_opens by exact Hfree.
  set (f := {| name := os_path_join OUTPUT_DIR CSV_FILE_NAME; mode := "a" |}).
  pose proof (for_each_completes network html_parser Hup Py.Str f
                PANTONE_COATED_NAMED_COLOURS
                (prepared fs0 (os_path_join OUTPUT_DIR CSV_FILE_NAME))
                names_resolve) as H1.
  destruct (for_each PANTONE_COATED_NAMED_COLOURS _ _) as [[[]|e] st1];
    cbn [fst] in H1; [|discriminate].
  pose proof (for_each_completes network html_parser Hup Py.Int f
                PANTONE_COATED_NUMBERED_COLOURS st1 numbers_resolve) as H2.
  destruct (for_each PANTONE_COATED_NUMBERED_COLOURS _ _) as [[[]|e] st2];
    cbn [fst] in H2; [reflexivity|discriminate].
Qed.

Lemma completed_run_was_answered
  (network : nat -> string -> Requests.outcome)
  (html_parser : string -> Bs4.soup) (OUTPUT_DIR : string)
  (fs0 : filesystem) :
  fs0 (os_path_join OUTPUT_DIR CSV_FILE_NAME) <> Directory ->
  fst (main network html_parser OUTPUT_DIR (boot fs0)) = Ok tt ->
  all_answered network
    (trace (snd (main network html_parser OUTPUT_DIR (boot fs0)))).
Proof.
  intros Hfree. unfold main, bind.
  rewrite prepare_csv_file_opens by exact Hfree.
  set (path := os_path_join OUTPUT_DIR CSV_FILE_NAME).
  pose proof (prepared_invariant network html_parser OUTPUT_DIR fs0) as H0.
  fold path in H0.
  assert (Hall0 : all_answered network (trace (prepared fs0 path)))
    by (intros [|k] url Hk; discriminate).
  pose proof (for_each_keeps_invariant network html_parser path
                (content_of (fs0 path)) Py.Str PANTONE_COATED_NAMED_COLOURS
                (prepared fs0 path) H0) as H1.
  pose proof (for_each_ok_answered network html_parser path
                (content_of (fs0 path)) Py.Str PANTONE_COATED_NAMED_COLOURS
                (prepared fs0 path) H0 Hall0) as Hall1.
  destruct (for_each PANTONE_COATED_NAMED_COLOURS _ (prepared fs0 path))
    as [[[]|e] st1]; cbn [fst snd] in *; [|discriminate].
  specialize (Hall1 eq_refl).
  pose proof (for_each_ok_answered network html_parser path
                (content_of (fs0 path)) Py.Int
                PANTONE_COATED_NUMBERED_COLOURS st1 H1 Hall1) as Hall2.
  destruct (for_each PANTONE_COATED_NUMBERED_COLOURS _ st1)
    as [[[]|e] st2]; cbn [fst snd] in *; [|discriminate].
  intros _. specialize (Hall2 eq_refl).
  intros k url Hk. apply Hall2.
  unfold print, log, gets in Hk. cbn [snd trace] in Hk.
  rewrite flat_map_app in Hk. cbn [flat_map app] in Hk.
  now rewrite app_nil_r in Hk.
Qed.

(** ** Claims about a whole run *)

(** C2 fails on the code. If the site answers the first request of the
    run, for "Black C", with a 4xx or 5xx status, [scrape_colour] returns
    [None], [main] subscripts it and stops on [TypeError]: no other
    identifier is looked up, nothing is written and completion is not
    announced.  At any position it is the same: a run that goes through
    to its end got a success status for every request it sent. *)
Theorem failed_fetch_halts_the_run
  (network : nat -> string -> Requests.outcome)
  (html_parser : string -> Bs4.soup) (OUTPUT_DIR : string)
  (fs0 : filesystem) :
  fs0 (os_path_join OUTPUT_DIR CSV_FILE_NAME) <> Directory ->
  let run := main network html_parser OUTPUT_DIR (boot fs0) in
  (forall r,
     network 0%nat "https://www.pantone.com/color-finder/Black-C"
     = Requests.Received r ->
     Requests.ok r = false ->
     fst run = Raise TypeError
     /\ gets (trace (snd run))
        = ["https://www.pantone.com/color-finder/Black-C"]
     /\ writes (trace (snd run)) = []
     /\ ~ In (Print "Scraping is complete.") (trace (snd run)))
  /\ (fst run = Ok tt ->
      forall k url,
        nth_error (gets (trace (snd run))) k = Some url ->
        exists r, network k url = Requests.Received r /\ Requests.ok r = true).
Proof.
  intros Hfree run. split.
  - intros r Hnet Hok.
    set (path := os_path_join OUTPUT_DIR CSV_FILE_NAME) in *.
    set (f := {| name := path; mode := "a" |}).
    assert (Hb : main_body network html_parser f (Py.Str "Black C")
                   (prepared fs0 path)
                 = (Raise TypeError,
                    requested "https://www.pantone.com/color-finder/Black-C"
                      (prepared fs0 path))).
    { rewrite main_body_unfold, scrape_colour_unfold.
      change (scrape_colour_try (Py.Str "Black C"))
        with (Ok (Some "https://www.pantone.com/color-finder/Black-C")).
      cbn [sent prepared]. rewrite Hnet, Hok. reflexivity. }
    assert (Hrun : run
                   = (Raise TypeError,
                      requested "https://www.pantone.com/color-finder/Black-C"
                        (prepared fs0 path))).
    { subst run. unfold main. unfold bind at 1.
      rewrite prepare_csv_file_opens by exact Hfree. fold path. fold f.
      unfold bind at 1. unfold PANTONE_COATED_NAMED_COLOURS.
      now rewrite (for_each_halts
                     (fun i => main_body network html_parser f (Py.Str i))
                     "Black C" _ _ _ _ Hb). }
    rewrite Hrun. cbn [fst snd trace requested prepared app].
    repeat apply conj; try reflexivity.
    intros [H|[H|[]]]; discriminate.
  - intros Hok. now apply completed_run_was_answered.
Qed.

Lemma failed_fetch_halts_the_run_witness :
  fst (main Samples.site_404 Samples.full_parser "/srv"
         (boot Samples.empty_disk)) = Raise TypeError.
Proof.
  refine (proj1 (proj1 (failed_fetch_halts_the_run Samples.site_404
    Samples.full_parser "/srv" Samples.empty_disk _)
    {| Requests.status_code := 404; Requests.text := "Not Found" |}
    eq_refl eq_refl)).
  discriminate.
Defined.

(** C9, as stated, fails: a run that goes through both sequences ends
    with the completion notification, and the output file object is
    still open: nothing in [main] closes it. *)
Lemma sink_left_open :
  let run :=
    main Samples.site_up Samples.bare_parser "/srv"
      (boot Samples.empty_disk) in
  fst run = Ok tt
  /\ Z.of_nat (sent (snd run)) = 7724
  /\ last (trace (snd run)) (Sleep 0) = Print "Scraping is complete."
  /\ open_files (snd run) = [Samples.csv_file].
Proof. vm_compute. repeat split. Qed.

(** C9, amended. A run that goes through both sequences announces
    completion as its last act, once, and returns with the output file
    object still open; a run that stops on an exception does not announce
    completion.  When the site answers every request with a success
    status, the run does go through both sequences. *)
Theorem completion_leaves_sink_open
  (network : nat -> string -> Requests.outcome)
  (html_parser : string -> Bs4.soup) (OUTPUT_DIR : string)
  (fs0 : filesystem) :
  let path := os_path_join OUTPUT_DIR CSV_FILE_NAME in
  fs0 path <> Directory ->
  let run := main network html_parser OUTPUT_DIR (boot fs0) in
  (fst run = Ok tt ->
   (exists tr,
      trace (snd run) = (tr ++ [Print "Scraping is complete."])%list
      /\ ~ In (Print "Scraping is complete.") tr)
   /\ open_files (snd run) = [{| name := path; mode := "a" |}])
  /\ (forall e, fst run = Raise e ->
                ~ In (Print "Scraping is complete.") (trace (snd run)))
  /\ ((forall k url, exists r,
          network k url = Requests.Received r /\ Requests.ok r = true) ->
      fst run = Ok tt).
Proof.
  intros path Hfree run.
  destruct (main_run network html_parser OUTPUT_DIR fs0 Hfree)
    as (st & (_ & _ & Hfiles & Hquiet & _) & Hend).
  fold path in Hfiles. rewrite Forall_forall in Hquiet.
  assert (Hnot : ~ In (Print "Scraping is complete.") (trace st))
    by (intros Hin; now apply (Hquiet _ Hin)).
  split; [|split].
  - intros Hok. subst run. destruct Hend as [-> | [e He]].
    + cbn [snd]. split; [|exact Hfiles].
      exists (trace st). split; [reflexivity|exact Hnot].
    + rewrite He in Hok. discriminate.
  - intros e He. subst run. destruct Hend as [Hrun | [e' ->]].
    + rewrite Hrun in He. discriminate.
    + exact Hnot.
  - intros Hup. now apply main_completes.
Qed.

Lemma completion_leaves_sink_open_witness :
  fst (main Samples.site_up Samples.full_parser "/srv"
         (boot Samples.empty_disk)) = Ok tt.
Proof.
  refine (proj2 (proj2 (completion_leaves_sink_open Samples.site_up
    Samples.full_parser "/srv" Samples.empty_disk _)) _).
  - discriminate.
  - intros k url. eexists. split; reflexivity.
Defined.

(** * Further properties of the script *)

(** ** The output path taken by something that is not a file *)

Lemma prepare_csv_file_blocked (directory name : string) (st : state) :
  fs st (os_path_join directory name) = Directory ->
  prepare_csv_file directory name st
  = (Raise (UnboundLocalError "csv_file"), st).
Proof.
  unfold prepare_csv_file.
  remember (os_path_join directory name) as p eqn:Hp. clear Hp.
  intros H. unfold bind, os_path_exists, os_path_isfile, ret, raise, local.
  do 3 (cbn; rewrite ?H). reflexivity.
Qed.

(** X1. When the output path exists and is not a regular file (a
    directory), [prepare_csv_file] opens nothing and leaves [csv_file]
    unbound: it raises [UnboundLocalError], and so does [main], before
    any request is sent and with the state untouched. *)
Theorem directory_at_path_stops_the_run
  (network : nat -> string -> Requests.outcome)
  (html_parser : string -> Bs4.soup) (OUTPUT_DIR : string) (st : state) :
  fs st (os_path_join OUTPUT_DIR CSV_FILE_NAME) = Directory ->
  prepare_csv_file OUTPUT_DIR CSV_FILE_NAME st
  = (Raise (UnboundLocalError "csv_file"), st)
  /\ main network html_parser OUTPUT_DIR st
     = (Raise (UnboundLocalError "csv_file"), st).
Proof.
  intros H. pose proof (prepare_csv_file_blocked _ _ _ H) as Hp.
  split; [exact Hp|]. unfold main, bind. now rewrite Hp.
Qed.

Lemma directory_at_path_stops_the_run_witness :
  main Samples.site_up Samples.full_parser "/srv"
    (boot MoreSamples.blocked_disk)
  = (Raise (UnboundLocalError "csv_file"), boot MoreSamples.blocked_disk).
Proof.
  exact (proj2 (directory_at_path_stops_the_run Samples.site_up
    Samples.full_parser "/srv" (boot MoreSamples.blocked_disk) eq_refl)).
Defined.

(** ** What one lookup does and how it can end *)

Lemma try_total (v : Py.value) :
  (Py.int v = Ok 0 /\ scrape_colour_try v = Ok None)
  \/ (Py.int v <> Ok 0 /\ exists url, scrape_colour_try v = Ok (Some url)).
Proof.
  destruct (Py.int v) as [n|e] eqn:Hv.
  - destruct (Z.eq_dec n 0) as [->|Hn].
    + left. split; [reflexivity|now apply try_of_zero].
    + right. split; [congruence|]. eexists. exact (try_of_number v n Hv Hn).
  - right. split; [discriminate|].
    destruct (int_raises_only_ValueError v e Hv) as [-> [s ->]].
    eexists. apply try_of_name.
    simpl in Hv. destruct (Py.int_of_str s); [discriminate|reflexivity].
Qed.

(** X2. A lookup sends at most one request (there is no retry) and has
    no other effect: the file system and the open files are as before,
    and the trace gains nothing, or exactly one request. *)
Theorem lookup_sends_at_most_one_request
  (network : nat -> string -> Requests.outcome)
  (html_parser : string -> Bs4.soup) (v : Py.value) (st : state) :
  let st1 := snd (scrape_colour network html_parser v st) in
  fs st1 = fs st
  /\ open_files st1 = open_files st
  /\ ((trace st1 = trace st /\ sent st1 = sent st)
      \/ exists url,
           scrape_colour_try v = Ok (Some url)
           /\ trace st1 = (trace st ++ [Get url])%list
           /\ sent st1 = S (sent st)).
Proof.
  rewrite scrape_colour_unfold.
  destruct (scrape_colour_try v) as [[url|]|e]; cbn;
    try (repeat split; left; split; reflexivity).
  destruct (network (sent st) url); cbn;
    (repeat split; right; exists url; repeat split).
Qed.

(** X3. How a lookup ends, and when.  It raises [UnboundLocalError]
    exactly for an identifier of integer value zero and
    [RequestException] exactly when its request does not get through; it
    returns [None] exactly on a response with a failure status; and when
    it returns a pair, the response had a success status and the pair is
    what the two extractors find in the parsed body. *)
Theorem lookup_outcomes
  (network : nat -> string -> Requests.outcome)
  (html_parser : string -> Bs4.soup) (v : Py.value) (st : state) :
  let out := fst (scrape_colour network html_parser v st) in
  (out = Raise (UnboundLocalError "colour_url") <-> Py.int v = Ok 0)
  /\ (out = Raise RequestException <->
      exists url, scrape_colour_try v = Ok (Some url)
                  /\ network (sent st) url = Requests.Failed)
  /\ (out = Ok None <->
      exists url r, scrape_colour_try v = Ok (Some url)
                    /\ network (sent st) url = Requests.Received r
                    /\ Requests.ok r = false)
  /\ (forall pair, out = Ok (Some pair) ->
      exists url r, scrape_colour_try v = Ok (Some url)
                    /\ network (sent st) url = Requests.Received r
                    /\ Requests.ok r = true
                    /\ pair = (get_colour_code (html_parser (Requests.text r)),
                               get_colour_hex (html_parser (Requests.text r)))).
Proof.
  intros out. subst out. rewrite scrape_colour_unfold.
  destruct (try_total v) as [[Hz Ht] | [Hnz [url Ht]]]; rewrite Ht; cbn.
  - refine (conj _ (conj _ (conj _ _))).
    + split; [intros _; exact Hz|reflexivity].
    + split; [discriminate|]. intros (u & [=] & _).
    + split; [discriminate|]. intros (u & r & [=] & _).
    + discriminate.
  - destruct (network (sent st) url) as [r|] eqn:Hnet; cbn;
      [destruct (Requests.ok r) eqn:Hok|];
      refine (conj _ (conj _ (conj _ _))).
    + split; [discriminate|contradiction].
    + split; [discriminate|]. intros (u & [= <-] & H). congruence.
    + split; [discriminate|].
      intros (u & r' & [= <-] & H1 & H2). congruence.
    + intros pair [= <-]. now exists url, r.
    + split; [discriminate|contradiction].
    + split; [discriminate|]. intros (u & [= <-] & H). congruence.
    + split; [intros _; now exists url, r|reflexivity].
    + discriminate.
    + split; [discriminate|contradiction].
    + split; [intros _; now exists url|reflexivity].
    + split; [discriminate|].
      intros (u & r' & [= <-] & H1 & _). congruence.
    + discriminate.
Qed.

Lemma lookup_outcomes_witness :
  fst (scrape_colour Samples.site_up Samples.full_parser (Py.Str "-0")
         (boot Samples.empty_disk))
  = Raise (UnboundLocalError "colour_url")
  /\ fst (scrape_colour Samples.site_404 Samples.full_parser
            (Py.Str "Black C") (boot Samples.empty_disk)) = Ok None
  /\ exists url r,
       scrape_colour_try (Py.Int 2995) = Ok (Some url)
       /\ Samples.site_up 0%nat url = Requests.Received r
       /\ Requests.ok r = true
       /\ (Some "2995 C", Some "00A9E0")
          = (get_colour_code (Samples.full_parser (Requests.text r)),
             get_colour_hex (Samples.full_parser (Requests.text r))).
Proof.
  split; [|split].
  - exact (proj2 (proj1 (lookup_outcomes Samples.site_up Samples.full_parser
      (Py.Str "-0") (boot Samples.empty_disk))) eq_refl).
  - refine (proj2 (proj1 (proj2 (proj2 (lookup_outcomes Samples.site_404
      Samples.full_parser (Py.Str "Black C") (boot Samples.empty_disk))))) _).
    eexists _, _. repeat split; reflexivity.
  - exact (proj2 (proj2 (proj2 (lookup_outcomes Samples.site_up
      Samples.full_parser (Py.Int 2995) (boot Samples.empty_disk))))
      (Some "2995 C", Some "00A9E0") eq_refl).
Defined.

(** X4. An integer and its decimal numeral are the same identifier: for
    every integer [n], zero included, the lookup of the string [str(n)]
    does exactly what the lookup of [n] does. *)
Theorem integer_and_numeral_agree
  (network : nat -> string -> Requests.outcome)
  (html_parser : string -> Bs4.soup) (n : Z) (st : state) :
  scrape_colour network html_parser (Py.Str (Py.str (Py.Int n))) st
  = scrape_colour network html_parser (Py.Int n) st.
Proof.
  rewrite !scrape_colour_unfold.
  replace (scrape_colour_try (Py.Str (Py.str (Py.Int n))))
    with (scrape_colour_try (Py.Int n)); [reflexivity|].
  unfold scrape_colour_try. rewrite int_of_str_of_int.
  cbn [Py.int Py.str]. reflexivity.
Qed.

(** ** No space in the URL of a name *)

Lemma all_chars_append (p : ascii -> bool) (a b : string) :
  all_chars p (a ++ b) = (all_chars p a && all_chars p b)%bool.
Proof.
  induction a as [|c a IH]; simpl; [reflexivity|].
  now rewrite IH, andb_assoc.
Qed.

Lemma replace_leaves_no_space (s : string) :
  no_space (Py.replace " " "-" s) = true.
Proof.
  unfold no_space. induction s as [|c s IH]; simpl; [reflexivity|].
  rewrite IH, andb_true_r. destruct (Ascii.eqb c " ") eqn:E.
  - reflexivity.
  - now rewrite E.
Qed.

(** X5. The URL built for a name holds no space beyond those of the base
    URL; the script's base has none, so the URL requested for any string
    identifier that does not parse as an integer is free of spaces. *)
Theorem named_target_has_no_space (base s : string) :
  no_space base = true ->
  (exists url, get_colour_url_from_name base (Py.Str s) = Ok url
               /\ no_space url = true)
  /\ (Py.int_of_str s = None ->
      exists url, scrape_colour_try (Py.Str s) = Ok (Some url)
                  /\ no_space url = true).
Proof.
  intros Hbase.
  assert (H : forall b, no_space b = true ->
                no_space (b ++ "/" ++ Py.replace " " "-" s) = true).
  { intros b Hb. unfold no_space in *. rewrite !all_chars_append, Hb.
    cbn. apply replace_leaves_no_space. }
  split.
  - eexists. split; [reflexivity|]. now apply H.
  - intros Hs. eexists. split; [now apply try_of_name|]. now apply H.
Qed.

Lemma named_target_has_no_space_witness :
  exists url,
    scrape_colour_try (Py.Str "Cool Gray 10 C") = Ok (Some url)
    /\ no_space url = true.
Proof.
  exact (proj2 (named_target_has_no_space COLOUR_FINDER_URL "Cool Gray 10 C"
                  eq_refl) eq_refl).
Defined.

(** ** From the page to the record *)

Lemma main_body_on_page
  (network : nat -> string -> Requests.outcome)
  (html_parser : string -> Bs4.soup) (f : file) (i : Py.value) (st : state)
  (url : string) (r : Requests.Response) :
  scrape_colour_try i = Ok (Some url) ->
  network (sent st) url = Requests.Received r ->
  Requests.ok r = true ->
  main_body network html_parser f i st
  = match get_colour_code (html_parser (Requests.text r)),
          get_colour_hex (html_parser (Requests.text r)) with
    | Some colour_code, Some colour_hex =>
        (Ok tt, recorded f colour_code colour_hex (requested url st))
    | _, _ => (Ok tt, requested url st)
    end.
Proof.
  intros Ht Hnet Hok.
  rewrite main_body_unfold, scrape_colour_unfold, Ht, Hnet, Hok.
  destruct (get_colour_code (html_parser (Requests.text r))),
    (get_colour_hex (html_parser (Requests.text r))); reflexivity.
Qed.

Lemma lstrip_blank (sp : ascii -> bool) (s : string) :
  all_chars sp s = true -> Py.lstrip sp s = EmptyString.
Proof.
  induction s as [|c s IH]; simpl; [reflexivity|].
  intros H. apply andb_prop in H as [Hc Hs]. now rewrite Hc, IH.
Qed.

Lemma strip_blank (s : string) :
  all_chars Py.isspace s = true -> Py.strip s = EmptyString.
Proof. intros H. unfold Py.strip. now rewrite lstrip_blank. Qed.

(** X6. From the response to the file: when the request of an identifier
    is answered with a success status and the parsed body has a node
    with each marker, the body of the loop ends normally and writes one
    line, made of the trimmed text of the first node of class
    [pColorCode], a comma and a space, the trimmed text of the first node
    with the hex id, a comma, a space and a line feed. *)
Theorem record_holds_text_of_first_marked_nodes
  (network : nat -> string -> Requests.outcome)
  (html_parser : string -> Bs4.soup) (f : file) (i : Py.value) (st : state)
  (url : string) (r : Requests.Response) (t1 t2 : Bs4.node) :
  scrape_colour_try i = Ok (Some url) ->
  network (sent st) url = Requests.Received r ->
  Requests.ok r = true ->
  first_match "class" "pColorCode" (html_parser (Requests.text r)) t1 ->
  first_match "id" "ctl00_cphContent_ctl00_divHEXValues"
    (html_parser (Requests.text r)) t2 ->
  let done := main_body network html_parser f i st in
  fst done = Ok tt
  /\ writes (trace (snd done))
     = (writes (trace st)
        ++ [(name f,
             (Py.strip (Bs4.text t1) ++ ", " ++ Py.strip (Bs4.text t2)
              ++ ", " ++ Py.newline)%string)])%list.
Proof.
  intros Ht Hnet Hok H1 H2 done. subst done.
  rewrite (main_body_on_page _ _ _ _ _ _ _ Ht Hnet Hok).
  unfold get_colour_code, get_colour_hex.
  rewrite (extract_present _ _ _ _ H1), (extract_present _ _ _ _ H2).
  split; [reflexivity|]. cbn [snd]. now project_trace.
Qed.

Lemma record_holds_text_of_first_marked_nodes_witness :
  writes (trace (snd (main_body Samples.site_up Samples.full_parser
                        Samples.csv_file (Py.Int 2995) Samples.opened)))
  = [(Samples.csv_path, "2995 C" ++ ", " ++ "00A9E0" ++ ", " ++ Py.newline)].
Proof.
  refine (proj2 (record_holds_text_of_first_marked_nodes Samples.site_up
    Samples.full_parser Samples.csv_file (Py.Int 2995) Samples.opened
    "https://www.pantone.com/color-finder/2995-C"
    {| Requests.status_code := 200; Requests.text := "<html>" |}
    (Bs4.Tag "div" [("class", Bs4.AttrList ["swatch"; "pColorCode"])]
       [Bs4.NavigableString "  2995 C "])
    (Bs4.Tag "span"
       [("id", Bs4.AttrStr "ctl00_cphContent_ctl00_divHEXValues")]
       [Bs4.Tag "b" [] [Bs4.NavigableString "00A9E0"];
        Bs4.NavigableString Py.newline])
    eq_refl eq_refl eq_refl _ _)).
  - eexists [_], _. split; [reflexivity|]. split; [reflexivity|].
    repeat constructor.
  - eexists [_; _; _; _], _. split; [reflexivity|]. split; [reflexivity|].
    repeat constructor.
Defined.

(** X7. A field is tested for presence, not for content: when the first
    node of class [pColorCode] holds nothing but blanks, the colour code
    is the empty string, not the absent value, and with the hex node
    present the record is still written, with an empty first field. *)
Theorem blank_field_is_still_recorded
  (network : nat -> string -> Requests.outcome)
  (html_parser : string -> Bs4.soup) (f : file) (i : Py.value) (st : state)
  (url : string) (r : Requests.Response) (t1 t2 : Bs4.node) :
  scrape_colour_try i = Ok (Some url) ->
  network (sent st) url = Requests.Received r ->
  Requests.ok r = true ->
  first_match "class" "pColorCode" (html_parser (Requests.text r)) t1 ->
  all_chars Py.isspace (Bs4.text t1) = true ->
  first_match "id" "ctl00_cphContent_ctl00_divHEXValues"
    (html_parser (Requests.text r)) t2 ->
  get_colour_code (html_parser (Requests.text r)) = Some EmptyString
  /\ writes (trace (snd (main_body network html_parser f i st)))
     = (writes (trace st)
        ++ [(name f,
             (", " ++ Py.strip (Bs4.text t2) ++ ", " ++ Py.newline)%string)])%list.
Proof.
  intros Ht Hnet Hok H1 Hblank H2.
  rewrite (main_body_on_page _ _ _ _ _ _ _ Ht Hnet Hok).
  unfold get_colour_code, get_colour_hex.
  rewrite (extract_present _ _ _ _ H1), (extract_present _ _ _ _ H2).
  rewrite (strip_blank _ Hblank).
  split; [reflexivity|]. cbn [snd]. now project_trace.
Qed.

Lemma blank_field_is_still_recorded_witness :
  writes (trace (snd (main_body Samples.site_up MoreSamples.blank_code_parser
                        Samples.csv_file (Py.Int 100) Samples.opened)))
  = [(Samples.csv_path, ", " ++ "00A9E0" ++ ", " ++ Py.newline)].
Proof.
  refine (proj2 (blank_field_is_still_recorded Samples.site_up
    MoreSamples.blank_code_parser Samples.csv_file (Py.Int 100) Samples.opened
    "https://www.pantone.com/color-finder/100-C"
    {| Requests.status_code := 200; Requests.text := "<html>" |}
    (Bs4.Tag "div" [("class", Bs4.AttrList ["pColorCode"])]
       [Bs4.NavigableString "   "])
    (Bs4.Tag "span"
       [("id", Bs4.AttrStr "ctl00_cphContent_ctl00_divHEXValues")]
       [Bs4.NavigableString "00A9E0"])
    eq_refl eq_refl eq_refl _ eq_refl _)).
  - eexists [], _. split; [reflexivity|]. split; [reflexivity|]. constructor.
  - eexists [_; _], _. split; [reflexivity|]. split; [reflexivity|].
    repeat constructor.
Defined.

(** ** The shape of a run *)

Lemma main_unfold
  (network : nat -> string -> Requests.outcome)
  (html_parser : string -> Bs4.soup) (OUTPUT_DIR : string)
  (fs0 : filesystem) :
  let path := os_path_join OUTPUT_DIR CSV_FILE_NAME in
  let csv_file := {| name := path; mode := "a" |} in
  fs0 path <> Directory ->
  main network html_parser OUTPUT_DIR (boot fs0)
  = match for_each PANTONE_COATED_NAMED_COLOURS
            (fun i => main_body network html_parser csv_file (Py.Str i))
            (prepared fs0 path) with
    | (Ok _, st1) =>
        match for_each PANTONE_COATED_NUMBERED_COLOURS
                (fun i => main_body network html_parser csv_file (Py.Int i))
                st1 with
        | (Ok _, st2) => (Ok tt, log completion st2)
        | (Raise e, st2) => (Raise e, st2)
        end
    | (Raise e, st1) => (Raise e, st1)
    end.
Proof.
  intros path csv_file Hfree. unfold main, bind.
  rewrite prepare_csv_file_opens by exact Hfree. reflexivity.
Qed.

Lemma for_each_invariant {A : Type} (body : A -> M unit) (I : state -> Prop)
  (l : list A) (st : state) :
  (forall x st, I st -> I (snd (body x st))) ->
  I st -> I (snd (for_each l body st)).
Proof.
  intros Hbody. revert st. induction l as [|x l IH]; intros st H; [exact H|].
  cbn [for_each]. unfold bind. pose proof (Hbody x st H) as H1.
  destruct (body x st) as [[[]|e] st1]; cbn [snd] in *; [now apply IH|exact H1].
Qed.

(** Whatever property the loop body keeps and the freshly prepared state
    has, holds of the state a run ends in, before its last print if it
    completes. *)
Lemma main_invariant
  (network : nat -> string -> Requests.outcome)
  (html_parser : string -> Bs4.soup) (OUTPUT_DIR : string)
  (fs0 : filesystem) (I : state -> Prop) :
  let path := os_path_join OUTPUT_DIR CSV_FILE_NAME in
  let csv_file := {| name := path; mode := "a" |} in
  fs0 path <> Directory ->
  (forall i st, I st -> I (snd (main_body network html_parser csv_file i st))) ->
  I (prepared fs0 path) ->
  exists st,
    I st
    /\ (main network html_parser OUTPUT_DIR (boot fs0)
        = (Ok tt, log completion st)
        \/ exists e,
             main network html_parser OUTPUT_DIR (boot fs0) = (Raise e, st)).
Proof.
  intros path csv_file Hfree Hbody H0.
  rewrite (main_unfold network html_parser OUTPUT_DIR fs0 Hfree).
  fold path. fold csv_file.
  pose proof (for_each_invariant
                (fun i => main_body network html_parser csv_file (Py.Str i))
                I PANTONE_COATED_NAMED_COLOURS (prepared fs0 path)
                (fun x st => Hbody (Py.Str x) st) H0) as H1.
  destruct (for_each PANTONE_COATED_NAMED_COLOURS _ (prepared fs0 path))
    as [[[]|e] st1]; cbn [snd] in H1.
  - pose proof (for_each_invariant
                  (fun i => main_body network html_parser csv_file (Py.Int i))
                  I PANTONE_COATED_NUMBERED_COLOURS st1
                  (fun x st => Hbody (Py.Int x) st) H1) as H2.
    destruct (for_each PANTONE_COATED_NUMBERED_COLOURS _ st1)
      as [[[]|e] st2]; cbn [snd] in H2.
    + exists st2. split; [exact H2|]. now left.
    + exists st2. split; [exact H2|]. right. now exists e.
  - exists st1. split; [exact H1|]. right. now exists e.
Qed.

(** ** The order of the requests *)

Lemma names_take_the_name_route (s : string) :
  In s PANTONE_COATED_NAMED_COLOURS ->
  scrape_colour_try (Py.Str s)
  = Ok (Some (COLOUR_FINDER_URL ++ "/" ++ Py.replace " " "-" s)).
Proof.
  intros Hs. apply try_of_name.
  assert (H : forallb (fun s => match Py.int_of_str s with
                                | None => true
                                | Some _ => false
                                end) PANTONE_COATED_NAMED_COLOURS = true)
    by (vm_compute; reflexivity).
  rewrite forallb_forall in H. specialize (H s Hs).
  now destruct (Py.int_of_str s).
Qed.

Lemma numbers_take_the_number_route (n : Z) :
  In n PANTONE_COATED_NUMBERED_COLOURS ->
  scrape_colour_try (Py.Int n)
  = Ok (Some (get_colour_url_from_number COLOUR_FINDER_URL (Py.Int n))).
Proof.
  intros Hn. apply range_bounds in Hn.
  apply (try_of_number (Py.Int n) n eq_refl). lia.
Qed.

Lemma main_body_gets
  (network : nat -> string -> Requests.outcome)
  (html_parser : string -> Bs4.soup) (f : file) (i : Py.value) (st : state)
  (url : string) :
  scrape_colour_try i = Ok (Some url) ->
  gets (trace (snd (main_body network html_parser f i st)))
  = (gets (trace st) ++ [url])%list.
Proof.
  intros Ht. rewrite main_body_unfold, scrape_colour_unfold, Ht.
  destruct (network (sent st) url) as [r|]; [destruct (Requests.ok r)|];
    [destruct (get_colour_code (html_parser (Requests.text r))),
       (get_colour_hex (html_parser (Requests.text r)))| |];
    cbn [snd]; now project_trace.
Qed.

Lemma for_each_gets
  (network : nat -> string -> Requests.outcome)
  (html_parser : string -> Bs4.soup) (f : file) {A : Type}
  (g : A -> Py.value) (u : A -> string) (l : list A) (st : state) :
  (forall a, In a l -> scrape_colour_try (g a) = Ok (Some (u a))) ->
  let out := for_each l (fun i => main_body network html_parser f (g i)) st in
  exists done rest,
    l = (done ++ rest)%list
    /\ gets (trace (snd out)) = (gets (trace st) ++ map u done)%list
    /\ (fst out = Ok tt -> rest = []).
Proof.
  revert st. induction l as [|x l IH]; intros st Hl out; subst out.
  - exists [], []. cbn. rewrite app_nil_r. repeat split.
  - cbn [for_each]. unfold bind.
    pose proof (main_body_gets network html_parser f (g x) st (u x)
                  (Hl x (or_introl eq_refl))) as Hx.
    destruct (main_body network html_parser f (g x) st) as [[[]|e] st1];
      cbn [fst snd] in *.
    + destruct (IH st1 (fun a Ha => Hl a (or_intror Ha)))
        as (done & rest & -> & Hgets & Hrest).
      exists (x :: done), rest. repeat split.
      * rewrite Hgets, Hx. cbn [map]. now rewrite <- app_assoc.
      * exact Hrest.
    + exists [x], l. repeat split; [exact Hx|discriminate].
Qed.

(** X8. The requests of a run follow the two tables: the URLs requested,
    in order, are an initial part of the list made of the name URL of
    every named colour, then the number URL of every integer from 100 to
    7771; no table entry is routed to the other builder, none is
    requested twice or skipped; a run that completes has requested the
    whole list. *)
Theorem requests_follow_the_tables
  (network : nat -> string -> Requests.outcome)
  (html_parser : string -> Bs4.soup) (OUTPUT_DIR : string)
  (fs0 : filesystem) :
  fs0 (os_path_join OUTPUT_DIR CSV_FILE_NAME) <> Directory ->
  let run := main network html_parser OUTPUT_DIR (boot fs0) in
  (exists rest, all_targets = (gets (trace (snd run)) ++ rest)%list)
  /\ (fst run = Ok tt -> gets (trace (snd run)) = all_targets).
Proof.
  intros Hfree run. subst run.
  rewrite (main_unfold network html_parser OUTPUT_DIR fs0 Hfree).
  set (path := os_path_join OUTPUT_DIR CSV_FILE_NAME).
  set (f := {| name := path; mode := "a" |}).
  destruct (for_each_gets network html_parser f Py.Str
              (fun s => COLOUR_FINDER_URL ++ "/" ++ Py.replace " " "-" s)
              PANTONE_COATED_NAMED_COLOURS (prepared fs0 path)
              names_take_the_name_route)
    as (done1 & rest1 & Hl1 & Hg1 & Hr1).
  cbn [prepared trace gets flat_map app] in Hg1.
  assert (Hlog : forall st2, gets (trace (log completion st2))
                             = gets (trace st2)).
  { intros st2. unfold log, gets. cbn [trace]. rewrite flat_map_app.
    cbn. now rewrite app_nil_r. }
  unfold all_targets.
  destruct (for_each PANTONE_COATED_NAMED_COLOURS _ (prepared fs0 path))
    as [[[]|e] st1]; cbn [fst snd] in *; rewrite Hl1, map_app.
  - rewrite (Hr1 eq_refl) in *. cbn [map] in *. rewrite !app_nil_r in *.
    destruct (for_each_gets network html_parser f Py.Int
                (fun n => get_colour_url_from_number COLOUR_FINDER_URL
                            (Py.Int n))
                PANTONE_COATED_NUMBERED_COLOURS st1
                numbers_take_the_number_route)
      as (done2 & rest2 & Hl2 & Hg2 & Hr2).
    destruct (for_each PANTONE_COATED_NUMBERED_COLOURS _ st1)
      as [[[]|e] st2]; cbn [fst snd] in *;
      rewrite ?Hlog, Hg2, Hg1, Hl2, map_app.
    + rewrite (Hr2 eq_refl). cbn [map]. rewrite !app_nil_r.
      split; [now exists []; rewrite app_nil_r|reflexivity].
    + split; [|discriminate]. eexists. now rewrite app_assoc.
  - rewrite Hg1. split; [|discriminate].
    eexists. now rewrite <- app_assoc.
Qed.

Lemma requests_follow_the_tables_witness :
  gets (trace (snd (main Samples.site_up Samples.bare_parser "/srv"
                      (boot Samples.empty_disk))))
  = all_targets.
Proof.
  refine (proj2 (requests_follow_the_tables Samples.site_up
    Samples.bare_parser "/srv" Samples.empty_disk _) _).
  - discriminate.
  - vm_compute. reflexivity.
Defined.

(** ** What a run leaves alone *)

Lemma recorded_fs_other (f : file) (colour_code colour_hex : string)
  (st : state) (p : string) :
  p <> name f -> fs (recorded f colour_code colour_hex st) p = fs st p.
Proof.
  intros Hp. apply String.eqb_neq in Hp.
  unfold recorded, bind, print, write, sleep, log. simpl.
  destruct (fs st (name f)); simpl; unfold fs_set; now rewrite ?Hp.
Qed.

Lemma main_body_fs_other
  (network : nat -> string -> Requests.outcome)
  (html_parser : string -> Bs4.soup) (f : file) (i : Py.value) (st : state)
  (p : string) :
  p <> name f ->
  fs (snd (main_body network html_parser f i st)) p = fs st p.
Proof.
  intros Hp. lookup_cases network html_parser i st; try reflexivity.
  now rewrite recorded_fs_other.
Qed.

(** X9. A run changes nothing in the file system but its output file:
    every other path holds after the run what it held before, however the
    run ends and whatever sits at the output path. *)
Theorem run_touches_only_the_output_file
  (network : nat -> string -> Requests.outcome)
  (html_parser : string -> Bs4.soup) (OUTPUT_DIR : string)
  (fs0 : filesystem) (p : string) :
  p <> os_path_join OUTPUT_DIR CSV_FILE_NAME ->
  fs (snd (main network html_parser OUTPUT_DIR (boot fs0))) p = fs0 p.
Proof.
  intros Hp. set (path := os_path_join OUTPUT_DIR CSV_FILE_NAME) in *.
  destruct (fs0 path) eqn:E.
  3: { unfold main, bind.
       now rewrite (prepare_csv_file_blocked OUTPUT_DIR CSV_FILE_NAME
                      (boot fs0) E). }
  all: assert (Hfree : fs0 path <> Directory) by (rewrite E; discriminate).
  all: destruct (main_invariant network html_parser OUTPUT_DIR fs0
                   (fun st => fs st p = fs0 p) Hfree) as (st & Hst & Hend);
    [ intros i st H; fold path;
      now rewrite main_body_fs_other by exact Hp
    | fold path; cbn [prepared fs]; unfold fs_set;
      apply String.eqb_neq in Hp; now rewrite Hp
    | destruct Hend as [-> | [e ->]]; exact Hst ].
Qed.

Lemma run_touches_only_the_output_file_witness :
  fs (snd (main Samples.site_up Samples.full_parser "/srv"
             (boot MoreSamples.used_disk))) "/srv/notes.txt"
  = File "keep".
Proof.
  refine (run_touches_only_the_output_file Samples.site_up
    Samples.full_parser "/srv" MoreSamples.used_disk "/srv/notes.txt" _).
  discriminate.
Defined.

(** ** Writes, pauses and progress lines of a whole run *)

Section Pace.

Variable network : nat -> string -> Requests.outcome.
Variable html_parser : string -> Bs4.soup.
Variable path : string.

Lemma successful_lookups_grow (tr tr' : list event) (url : string) :
  gets tr' = (gets tr ++ [url])%list ->
  successful_lookups network html_parser tr'
  = (successful_lookups network html_parser tr
     + if answered_in_full network html_parser (List.length (gets tr)) url
       then 1 else 0)%nat.
Proof.
  intros H. unfold successful_lookups. rewrite H, answered_from_app.
  cbn [answered_from Nat.add]. lia.
Qed.

Lemma repeat_snoc {A : Type} (x : A) (n : nat) :
  (repeat x n ++ [x])%list = repeat x (n + 1).
Proof. rewrite <- repeat_cons, Nat.add_1_r. reflexivity. Qed.

Lemma paced_request (url : string) (st : state) :
  sent st = List.length (gets (trace st)) ->
  answered_in_full network html_parser (sent st) url = false ->
  paced network html_parser path (trace st) ->
  paced network html_parser path (trace (requested url st)).
Proof.
  unfold paced. intros Hsent Hno (Hw & Hr & Hs & Hp).
  cbn [requested trace].
  rewrite (successful_lookups_grow (trace st) _ url)
    by (unfold gets; rewrite flat_map_app; reflexivity).
  rewrite <- Hsent, Hno, Nat.add_0_r.
  unfold writes, sleeps, prints in *. rewrite !flat_map_app.
  cbn [flat_map]. rewrite !app_nil_r. now repeat split.
Qed.

Lemma paced_record (url colour_code colour_hex : string) (st : state) :
  sent st = List.length (gets (trace st)) ->
  answered_in_full network html_parser (sent st) url = true ->
  paced network html_parser path (trace st) ->
  paced network html_parser path
    (trace (recorded {| name := path; mode := "a" |} colour_code colour_hex
              (requested url st))).
Proof.
  unfold paced. intros Hsent Hyes (Hw & Hr & Hs & Hp).
  rewrite recorded_trace. cbn [requested trace name].
  rewrite (successful_lookups_grow (trace st) _ url)
    by (unfold gets; rewrite !flat_map_app; cbn [flat_map app];
        now rewrite app_nil_r).
  rewrite <- Hsent, Hyes.
  unfold writes, sleeps, prints in *. rewrite !flat_map_app.
  cbn [flat_map app]. rewrite !app_nil_r, !map_app, !length_app.
  cbn [map fst snd List.length]. rewrite !app_nil_l.
  rewrite Hw, Hs, Hp, !repeat_snoc.
  repeat split; try lia.
  apply Forall_app. split; [exact Hr|].
  constructor; [|constructor]. now exists colour_code, colour_hex.
Qed.

Lemma main_body_keeps_pace (before : string) (i : Py.value) (st : state) :
  run_invariant network html_parser path before st
  /\ paced network html_parser path (trace st) ->
  run_invariant network html_parser path before
    (snd (main_body network html_parser {| name := path; mode := "a" |} i st))
  /\ paced network html_parser path
       (trace (snd (main_body network html_parser
                      {| name := path; mode := "a" |} i st))).
Proof.
  intros [H Hp]. split; [now apply main_body_keeps_invariant|].
  pose proof (proj1 H) as Hsent.
  lookup_cases network html_parser i st; try exact Hp;
    try (apply paced_request; [exact Hsent| |exact Hp];
         unfold answered_in_full; rewrite Hnet; cbn;
         rewrite ?Hok, ?Hcode, ?Hhex; reflexivity).
  apply paced_record; [exact Hsent| |exact Hp].
  unfold answered_in_full. now rewrite Hnet, Hok, Hcode, Hhex.
Qed.

End Pace.

(** X10. Over a whole run, however it ends, writes, pauses and progress
    lines go together: with [n] the number of requests answered in full,
    there are [n] writes, all to the output file and each one record,
    [n] pauses, each of one second, and two progress lines per record,
    plus the completion line when the run completes. *)
Theorem a_run_is_paced
  (network : nat -> string -> Requests.outcome)
  (html_parser : string -> Bs4.soup) (OUTPUT_DIR : string)
  (fs0 : filesystem) :
  let path := os_path_join OUTPUT_DIR CSV_FILE_NAME in
  fs0 path <> Directory ->
  let run := main network html_parser OUTPUT_DIR (boot fs0) in
  let tr := trace (snd run) in
  let n := successful_lookups network html_parser tr in
  map fst (writes tr) = repeat path n
  /\ Forall is_output_record (map snd (writes tr))
  /\ sleeps tr = repeat 1 n
  /\ List.length (prints tr)
     = (2 * n + match fst run with Ok _ => 1 | Raise _ => 0 end)%nat.
Proof.
  intros path Hfree run tr n. subst n tr run.
  destruct (main_invariant network html_parser OUTPUT_DIR fs0
              (fun st =>
                 run_invariant network html_parser path
                   (content_of (fs0 path)) st
                 /\ paced network html_parser path (trace st)) Hfree)
    as (st & [_ Hst] & Hend).
  - intros i st. apply main_body_keeps_pace.
  - split; [apply prepared_invariant; exact Hfree|].
    unfold paced. cbn [prepared trace]. now repeat split.
  - unfold paced in Hst. destruct Hst as (Hw & Hr & Hs & Hp).
    destruct Hend as [-> | [e ->]]; cbn [fst snd].
    + unfold log. cbn [trace].
      assert (Hn : successful_lookups network html_parser
                     (trace st ++ [completion])
                   = successful_lookups network html_parser (trace st)).
      { unfold successful_lookups, gets. rewrite flat_map_app.
        cbn. now rewrite app_nil_r. }
      rewrite Hn. unfold writes, sleeps, prints in *.
      rewrite !flat_map_app. cbn [flat_map completion app].
      rewrite !app_nil_r, length_app. cbn [List.length].
      repeat split; try assumption. lia.
    + repeat split; try assumption. lia.
Qed.

Lemma a_run_is_paced_witness :
  sleeps (trace (snd (main MoreSamples.site_fails_fourth
                        Samples.full_parser "/srv"
                        (boot Samples.empty_disk))))
  = repeat 1
      (successful_lookups MoreSamples.site_fails_fourth Samples.full_parser
         (trace (snd (main MoreSamples.site_fails_fourth
                        Samples.full_parser "/srv"
                        (boot Samples.empty_disk))))).
Proof.
  refine (proj1 (proj2 (proj2 (a_run_is_paced MoreSamples.site_fails_fourth
    Samples.full_parser "/srv" Samples.empty_disk _)))).
  discriminate.
Defined.

(** ** What can stop a run *)

Lemma main_body_stop
  (network : nat -> string -> Requests.outcome)
  (html_parser : string -> Bs4.soup) (f : file) (i : Py.value) (st : state)
  (e : exn) :
  resolves i = true ->
  fst (main_body network html_parser f i st) = Raise e ->
  stopped_by network e (snd (main_body network html_parser f i st)).
Proof.
  unfold resolves. intros Hi.
  lookup_cases network html_parser i st; try discriminate;
    intros [= <-]; exists st, url; (split; [reflexivity|]).
  - now exists r.
  - exact Hnet.
Qed.

Lemma for_each_stop
  (network : nat -> string -> Requests.outcome)
  (html_parser : string -> Bs4.soup) (f : file) {A : Type}
  (g : A -> Py.value) (l : list A) (st : state) (e : exn) :
  Forall (fun a => resolves (g a) = true) l ->
  fst (for_each l (fun i => main_body network html_parser f (g i)) st)
  = Raise e ->
  stopped_by network e
    (snd (for_each l (fun i => main_body network html_parser f (g i)) st)).
Proof.
  intros Hl. revert st. induction Hl as [|x l Hx _ IH]; intros st.
  - discriminate.
  - cbn [for_each]. unfold bind.
    pose proof (main_body_stop network html_parser f (g x) st e Hx) as H1.
    destruct (main_body network html_parser f (g x) st) as [[[]|e'] st1];
      cbn [fst snd] in *; [apply IH|exact H1].
Qed.

(** X11. A run does not trip over its own tables, and what stops it
    shows in its last act: [main] never raises the [UnboundLocalError]
    of an identifier of integer value zero; when it raises [TypeError],
    the last thing it did was a request that was answered with a 4xx or
    5xx status; when it raises the exception of [requests.get], its last
    request did not get through. *)
Theorem a_failed_fetch_is_the_last_act
  (network : nat -> string -> Requests.outcome)
  (html_parser : string -> Bs4.soup) (OUTPUT_DIR : string)
  (fs0 : filesystem) :
  let run := main network html_parser OUTPUT_DIR (boot fs0) in
  fst run <> Raise (UnboundLocalError "colour_url")
  /\ (fst run = Raise TypeError ->
      exists st url r,
        snd run = requested url st
        /\ network (sent st) url = Requests.Received r
        /\ Requests.ok r = false)
  /\ (fst run = Raise RequestException ->
      exists st url,
        snd run = requested url st
        /\ network (sent st) url = Requests.Failed).
Proof.
  intros run.
  assert (Hstop : forall e, fst run = Raise e ->
                    e = UnboundLocalError "csv_file"
                    \/ stopped_by network e (snd run)).
  { intros e. subst run.
    destruct (fs0 (os_path_join OUTPUT_DIR CSV_FILE_NAME)) eqn:E.
    3: { unfold main, bind.
         rewrite (prepare_csv_file_blocked OUTPUT_DIR CSV_FILE_NAME
                    (boot fs0) E).
         intros [= <-]. now left. }
    all: assert (Hfree : fs0 (os_path_join OUTPUT_DIR CSV_FILE_NAME)
                         <> Directory) by (rewrite E; discriminate).
    all: rewrite (main_unfold network html_parser OUTPUT_DIR fs0 Hfree).
    all: set (path := os_path_join OUTPUT_DIR CSV_FILE_NAME).
    all: set (f := {| name := path; mode := "a" |}).
    all: pose proof (for_each_stop network html_parser f Py.Str
                       PANTONE_COATED_NAMED_COLOURS (prepared fs0 path) e
                       names_resolve) as H1.
    all: destruct (for_each PANTONE_COATED_NAMED_COLOURS _ (prepared fs0 path))
           as [[[]|e1] st1]; cbn [fst snd] in *; [|intros H; right; now apply H1].
    all: pose proof (for_each_stop network html_parser f Py.Int
                       PANTONE_COATED_NUMBERED_COLOURS st1 e
                       numbers_resolve) as H2.
    all: destruct (for_each PANTONE_COATED_NUMBERED_COLOURS _ st1)
           as [[[]|e2] st2]; cbn [fst snd] in *;
           [discriminate|intros H; right; now apply H2]. }
  split; [|split].
  - intros H. destruct (Hstop _ H) as [[=] | (st & url & _ & [])].
  - intros H. destruct (Hstop _ H) as [[=] | (st & url & Hst & r & Hr)].
    now exists st, url, r.
  - intros H. destruct (Hstop _ H) as [[=] | (st & url & Hst & Hr)].
    now exists st, url.
Qed.

Lemma a_failed_fetch_is_the_last_act_witness :
  exists st url r,
    snd (main MoreSamples.site_fails_fourth Samples.full_parser "/srv"
           (boot Samples.empty_disk)) = requested url st
    /\ MoreSamples.site_fails_fourth (sent st) url = Requests.Received r
    /\ Requests.ok r = false.
Proof.
  refine (proj1 (proj2 (a_failed_fetch_is_the_last_act
    MoreSamples.site_fails_fourth Samples.full_parser "/srv"
    Samples.empty_disk)) _).
  vm_compute. reflexivity.
Defined.

(** ** Opening the output file *)

(** X12. On a path that is free or holds a regular file, both branches
    of [prepare_csv_file] are the one call [open(path, 'a')]: it does
    what that call does and fails when it fails.  Whenever
    [prepare_csv_file] returns, from any state, what it returns is a
    file object on the joined path in append mode, the path did not hold
    a non-file, the file holds exactly what it held before (nothing if it
    was missing: it is created, never emptied), no other path is
    touched, and the path was opened once. *)
Theorem prepare_csv_file_keeps_the_content
  (directory name_ : string) (st : state) :
  let path := os_path_join directory name_ in
  (fs st path <> Directory ->
   prepare_csv_file directory name_ st = open_ path "a" st)
  /\ (forall f st',
        prepare_csv_file directory name_ st = (Ok f, st') ->
        f = {| name := path; mode := "a" |}
        /\ fs st path <> Directory
        /\ fs st' path = File (content_of (fs st path))
        /\ (forall p, p <> path -> fs st' p = fs st p)
        /\ trace st' = (trace st ++ [Open path "a"])%list
        /\ open_files st' = (open_files st ++ [f])%list
        /\ sent st' = sent st).
Proof.
  intros path. subst path. unfold prepare_csv_file.
  remember (os_path_join directory name_) as p eqn:Hp. clear Hp.
  unfold bind, os_path_exists, os_path_isfile, ret, raise, local, open_, log.
  change (String.eqb "a" "a") with true. cbv iota.
  cbn [fs sent trace open_files].
  destruct (fs st p) eqn:E; do 3 (cbn; rewrite ?E); split.
  1, 3: reflexivity.
  3: intros H; now elim H.
  3: intros f st' [=].
  all: intros f st' [= <- <-]; cbn [fs trace open_files sent];
    unfold fs_set; rewrite String.eqb_refl;
    repeat split; try discriminate;
    intros q Hq; apply String.eqb_neq in Hq; now rewrite Hq.
Qed.

Lemma prepare_csv_file_keeps_the_content_witness :
  prepare_csv_file "/srv" CSV_FILE_NAME (boot MoreSamples.used_disk)
  = open_ Samples.csv_path "a" (boot MoreSamples.used_disk)
  /\ fs (snd (prepare_csv_file "/srv" CSV_FILE_NAME
                (boot MoreSamples.used_disk))) Samples.csv_path
     = File "old, 000000, ".
Proof.
  pose proof (prepare_csv_file_keeps_the_content "/srv" CSV_FILE_NAME
                (boot MoreSamples.used_disk)) as [H1 H2].
  split.
  - apply H1. discriminate.
  - exact (proj1 (proj2 (proj2 (H2 Samples.csv_file _ eq_refl)))).
Defined.

(** ** Two runs in a row *)

Section LedgerFacts.

Variable network : nat -> string -> Requests.outcome.
Variable html_parser : string -> Bs4.soup.
Variable path before : string.

Local Abbreviation csv_file := {| name := path; mode := "a" |}.
Local Abbreviation due := (records_due network html_parser).
Local Abbreviation kept := (ledger network html_parser path before).

Lemma record_due_length (k : nat) (url : string) :
  List.length (record_due network html_parser k url)
  = if answered_in_full network html_parser k url then 1%nat else 0%nat.
Proof.
  unfold record_due, answered_in_full.
  destruct (network k url) as [r|]; [|reflexivity].
  destruct (Requests.ok r); [|reflexivity].
  destruct (get_colour_code (html_parser (Requests.text r))),
    (get_colour_hex (html_parser (Requests.text r))); reflexivity.
Qed.

Lemma record_due_is_a_record (k : nat) (url : string) :
  Forall is_output_record (record_due network html_parser k url).
Proof.
  unfold record_due.
  destruct (network k url) as [r|]; [|constructor].
  destruct (Requests.ok r); [|constructor].
  destruct (get_colour_code (html_parser (Requests.text r))) as [c|],
    (get_colour_hex (html_parser (Requests.text r))) as [h|];
    try constructor; [now exists c, h|constructor].
Qed.

Lemma records_due_from_length (k : nat) (urls : list string) :
  List.length (records_due_from network html_parser k urls)
  = answered_from network html_parser k urls.
Proof.
  revert k. induction urls as [|url rest IH]; intros k; [reflexivity|].
  cbn [records_due_from answered_from].
  now rewrite length_app, record_due_length, IH.
Qed.

Lemma records_due_from_records (k : nat) (urls : list string) :
  Forall is_output_record (records_due_from network html_parser k urls).
Proof.
  revert k. induction urls as [|url rest IH]; intros k; [constructor|].
  cbn [records_due_from]. apply Forall_app. split.
  - apply record_due_is_a_record.
  - apply IH.
Qed.

Lemma records_due_from_app (k : nat) (a b : list string) :
  records_due_from network html_parser k (a ++ b)
  = (records_due_from network html_parser k a
     ++ records_due_from network html_parser (k + List.length a) b)%list.
Proof.
  revert k. induction a as [|url a IH]; intros k; simpl.
  - now rewrite Nat.add_0_r.
  - rewrite IH, <- app_assoc.
    now replace (S k + List.length a)%nat with (k + S (List.length a))%nat
      by lia.
Qed.

Lemma records_due_grow (tr tr' : list event) (url : string) :
  gets tr' = (gets tr ++ [url])%list ->
  due tr'
  = (due tr ++ record_due network html_parser (List.length (gets tr)) url)%list.
Proof.
  intros H. unfold records_due. rewrite H, records_due_from_app.
  cbn [records_due_from Nat.add]. now rewrite app_nil_r.
Qed.

Lemma records_due_same (tr tr' : list event) :
  gets tr' = gets tr -> due tr' = due tr.
Proof. intros H. unfold records_due. now rewrite H. Qed.

Lemma ledger_request (url : string) (st : state) :
  record_due network html_parser (sent st) url = [] ->
  kept st -> kept (requested url st).
Proof.
  intros Hnone (Hsent & Hopens & Hwrites & Hfs).
  assert (Hgets : gets (trace (requested url st))
                  = (gets (trace st) ++ [url])%list)
    by (cbn [requested trace]; unfold gets; now rewrite flat_map_app).
  unfold ledger. rewrite (records_due_grow _ _ _ Hgets), <- Hsent, Hnone.
  rewrite app_nil_r, Hgets, length_app. cbn [requested sent fs trace].
  repeat split.
  - cbn [List.length]. lia.
  - unfold opens. rewrite flat_map_app. cbn. now rewrite app_nil_r.
  - unfold writes in *. rewrite flat_map_app. cbn. now rewrite app_nil_r.
  - exact Hfs.
Qed.

Lemma ledger_record (url colour_code colour_hex : string) (st : state) :
  record_due network html_parser (sent st) url
  = [output_record colour_code colour_hex] ->
  kept st ->
  kept (recorded csv_file colour_code colour_hex (requested url st)).
Proof.
  intros Hone (Hsent & Hopens & Hwrites & Hfs).
  assert (Hgets : gets (trace (recorded csv_file colour_code colour_hex
                                 (requested url st)))
                  = (gets (trace st) ++ [url])%list).
  { rewrite recorded_trace. cbn [requested trace]. unfold gets.
    rewrite !flat_map_app. cbn [flat_map app]. now rewrite app_nil_r. }
  unfold ledger. rewrite (records_due_grow _ _ _ Hgets), <- Hsent, Hone.
  rewrite Hgets, length_app, recorded_sent.
  repeat split.
  - cbn [requested sent List.length]. lia.
  - rewrite recorded_trace. cbn [requested trace]. unfold opens in *.
    rewrite !flat_map_app. cbn [flat_map app]. now rewrite !app_nil_r.
  - rewrite recorded_trace. cbn [requested trace name]. unfold writes in *.
    rewrite !flat_map_app, map_app. cbn [flat_map app map].
    now rewrite app_nil_r, Hwrites.
  - pose proof (recorded_fs csv_file colour_code colour_hex
                  (requested url st) _ Hfs) as Hw.
    change (name csv_file) with path in Hw. rewrite Hw, file_of_app.
    cbn [file_of fold_right]. now rewrite append_empty_r, append_assoc.
Qed.

Lemma main_body_keeps_ledger (i : Py.value) (st : state) :
  kept st -> kept (snd (main_body network html_parser csv_file i st)).
Proof.
  intros H.
  lookup_cases network html_parser i st; try exact H;
    try (apply ledger_request; [|exact H];
         unfold record_due; rewrite Hnet; cbn;
         rewrite ?Hok, ?Hcode, ?Hhex; reflexivity).
  apply ledger_record; [|exact H].
  unfold record_due. now rewrite Hnet, Hok, Hcode, Hhex.
Qed.

End LedgerFacts.

Lemma prepare_returned_so_path_free (OUTPUT_DIR : string) (fs0 : filesystem)
  (f : file) :
  fst (prepare_csv_file OUTPUT_DIR CSV_FILE_NAME (boot fs0)) = Ok f ->
  fs0 (os_path_join OUTPUT_DIR CSV_FILE_NAME) <> Directory.
Proof.
  intros H E.
  rewrite (prepare_csv_file_blocked OUTPUT_DIR CSV_FILE_NAME (boot fs0) E)
    in H.
  discriminate.
Qed.

(** The ledger of one run, at its end. *)
Lemma run_ledger
  (network : nat -> string -> Requests.outcome)
  (html_parser : string -> Bs4.soup) (OUTPUT_DIR : string)
  (fs0 : filesystem) :
  let path := os_path_join OUTPUT_DIR CSV_FILE_NAME in
  fs0 path <> Directory ->
  let final := snd (main network html_parser OUTPUT_DIR (boot fs0)) in
  opens (trace final) = [(path, "a")]
  /\ writes (trace final)
     = map (fun r => (path, r))
         (records_due network html_parser (trace final))
  /\ fs final path
     = File (content_of (fs0 path)
             ++ file_of (records_due network html_parser (trace final))).
Proof.
  intros path Hfree final. subst final.
  destruct (main_invariant network html_parser OUTPUT_DIR fs0
              (ledger network html_parser path (content_of (fs0 path)))
              Hfree) as (st & (_ & Hopens & Hwrites & Hfs) & Hend).
  - intros i st. apply main_body_keeps_ledger.
  - unfold ledger. fold path. cbn [prepared sent trace fs].
    repeat split. unfold fs_set. rewrite String.eqb_refl.
    cbn. now rewrite append_empty_r.
  - destruct Hend as [-> | [e ->]]; cbn [snd]; [|now repeat split].
    assert (Hgets : gets (trace (log completion st)) = gets (trace st)).
    { unfold log, gets. cbn [trace]. rewrite flat_map_app.
      cbn. now rewrite app_nil_r. }
    rewrite (records_due_same network html_parser _ _ Hgets).
    unfold log. cbn [trace fs]. unfold opens, writes in *.
    rewrite !flat_map_app. cbn [flat_map completion app].
    rewrite !app_nil_r. now repeat split.
Qed.

(** C8. Take two runs in a row on the same output path, each of which
    gets its file object from [prepare_csv_file].  Each run opens the
    path exactly once, in append mode, whether the file was there or not.
    The writes of each run are, one for one and in order, the records of
    its successful lookups: one line "code, hex, " per request answered
    in full, built of the two fields of the page received, and nothing
    else.  After the second run the file holds what it held before the
    first, then the records of the first run, then those of the second:
    as many records as the two runs had successful lookups, none
    rewritten, none left out, none merged. *)
Theorem runs_accumulate
  (network1 network2 : nat -> string -> Requests.outcome)
  (html_parser1 html_parser2 : string -> Bs4.soup) (OUTPUT_DIR : string)
  (fs0 : filesystem) :
  let path := os_path_join OUTPUT_DIR CSV_FILE_NAME in
  let csv_file := {| name := path; mode := "a" |} in
  let first := snd (main network1 html_parser1 OUTPUT_DIR (boot fs0)) in
  let second :=
    snd (main network2 html_parser2 OUTPUT_DIR (boot (fs first))) in
  let records1 := records_due network1 html_parser1 (trace first) in
  let records2 := records_due network2 html_parser2 (trace second) in
  fst (prepare_csv_file OUTPUT_DIR CSV_FILE_NAME (boot fs0)) = Ok csv_file ->
  fst (prepare_csv_file OUTPUT_DIR CSV_FILE_NAME (boot (fs first)))
  = Ok csv_file ->
  opens (trace first) = [(path, "a")]
  /\ opens (trace second) = [(path, "a")]
  /\ writes (trace first) = map (fun r => (path, r)) records1
  /\ writes (trace second) = map (fun r => (path, r)) records2
  /\ fs second path
     = File (content_of (fs0 path) ++ file_of records1 ++ file_of records2)
  /\ List.length records1
     = successful_lookups network1 html_parser1 (trace first)
  /\ List.length records2
     = successful_lookups network2 html_parser2 (trace second)
  /\ Forall is_output_record (records1 ++ records2).
Proof.
  intros path csv_file first second records1 records2 Hopen1 Hopen2.
  pose proof (prepare_returned_so_path_free _ _ _ Hopen1) as Hfree1.
  pose proof (prepare_returned_so_path_free _ _ _ Hopen2) as Hfree2.
  destruct (run_ledger network1 html_parser1 OUTPUT_DIR fs0 Hfree1)
    as (Ho1 & Hw1 & Hfs1).
  destruct (run_ledger network2 html_parser2 OUTPUT_DIR (fs first) Hfree2)
    as (Ho2 & Hw2 & Hfs2).
  fold path first in Ho1, Hw1, Hfs1. fold records1 in Hw1, Hfs1.
  fold path second in Ho2, Hw2, Hfs2. fold records2 in Hw2, Hfs2.
  repeat apply conj; try assumption.
  - rewrite Hfs2, Hfs1. cbn [content_of]. now rewrite append_assoc.
  - apply records_due_from_length.
  - apply records_due_from_length.
  - apply Forall_app. split; apply records_due_from_records.
Qed.

(** Two runs on a site that answers three requests in full and fails the
    fourth: from a disk with no output file the file ends with six
    records; from a disk where it held a line, with that line and six
    records. *)
Lemma runs_accumulate_witness :
  let record := "2995 C, 00A9E0, " ++ Py.newline in
  let three := record ++ record ++ record in
  let twice (fs0 : filesystem) :=
    fs (snd (main MoreSamples.site_fails_fourth Samples.full_parser "/srv"
               (boot (fs (snd (main MoreSamples.site_fails_fourth
                                 Samples.full_parser "/srv" (boot fs0)))))))
       Samples.csv_path in
  twice Samples.empty_disk = File (three ++ three)
  /\ twice MoreSamples.used_disk = File ("old, 000000, " ++ three ++ three).
Proof.
  intros record three twice. split.
  - refine (eq_trans (proj1 (proj2 (proj2 (proj2 (proj2 (runs_accumulate
      MoreSamples.site_fails_fourth MoreSamples.site_fails_fourth
      Samples.full_parser Samples.full_parser "/srv" Samples.empty_disk
      _ _)))))) _); vm_compute; reflexivity.
  - refine (eq_trans (proj1 (proj2 (proj2 (proj2 (proj2 (runs_accumulate
      MoreSamples.site_fails_fourth MoreSamples.site_fails_fourth
      Samples.full_parser Samples.full_parser "/srv" MoreSamples.used_disk
      _ _)))))) _); vm_compute; reflexivity.
Defined.
